(** * Redshift role and role-grant resources: a shallow embedding

    The development follows three Go files of the provider:

    - [redshift/config.go]: the connection registry ([Client.Connect]) and
      the two lazily computed facts ([Config.IsServerless],
      [Config.GetUsername]);
    - the role-grant resource ([resourceRedshiftRoleGrantCreate], [..Read],
      [..Delete], [generateRoleGrantID]);
    - the role resource ([resourceRedshiftRoleCreate], [..Read], [..Update],
      [..Delete]).

    Go strings are byte strings ([string]).  Calls into [database/sql] are
    answered by a [Driver], an interface whose methods see the calls made so
    far; every call is appended to the history of the [World], so that a
    statement about "which queries were issued" is a statement about that
    list.  [log.Printf] has no effect on the results and is left out.  The
    mutexes serialize callers; one call is modelled at a time, so locking
    and unlocking are the identity. *)

From stdpp Require Import base option list gmap strings.
From Stdlib Require Import Ascii String ZArith Lia.

Local Open Scope string_scope.
Local Open Scope list_scope.

(** ** Package [strings] of the Go standard library *)

Module strings.

(** [strings.ToLower] and [strings.ToUpper] as Go computes them on ASCII
    text, byte by byte: for [ToLower] the bytes 'A'..'Z' are shifted by
    ['a' - 'A'] and every other byte is kept.  Text with bytes outside
    ASCII goes through Go's Unicode case tables, which are not part of this
    development; the kinds [user], [role], [group] and the delimiter [':']
    are ASCII. *)
Definition lowerByte (c : ascii) : ascii :=
  let n := nat_of_ascii c in
  if (65 <=? n)%nat && (n <=? 90)%nat then ascii_of_nat (n + 32) else c.

(** For [ToUpper] the bytes 'a'..'z' are shifted down. *)
Definition upperByte (c : ascii) : ascii :=
  let n := nat_of_ascii c in
  if (97 <=? n)%nat && (n <=? 122)%nat then ascii_of_nat (n - 32) else c.

Fixpoint mapBytes (f : ascii -> ascii) (s : string) : string :=
  match s with
  | EmptyString => EmptyString
  | String c s' => String (f c) (mapBytes f s')
  end.

Definition ToLower (s : string) : string := mapBytes lowerByte s.
Definition ToUpper (s : string) : string := mapBytes upperByte s.

(** [strings.Split(s, sep)] for a separator of one byte, the only way the
    provider calls it ([":"]): one field per occurrence of the separator,
    plus one; the empty string gives one empty field. *)
Fixpoint Split (s : string) (sep : ascii) : list string :=
  match s with
  | EmptyString => [EmptyString]
  | String c s' =>
      if Ascii.eqb c sep then EmptyString :: Split s' sep
      else match Split s' sep with
           | [] => [String c EmptyString]
           | p :: ps => String c p :: ps
           end
  end.

(** [strings.Contains(s, substr)]. *)
Fixpoint Contains (s substr : string) : bool :=
  String.prefix substr s ||
  match s with
  | EmptyString => false
  | String _ s' => Contains s' substr
  end.


End strings.

(** ** [pq.QuoteIdentifier] of github.com/lib/pq *)

Module pq.

Definition dquote : ascii := "034"%char.
Definition nul : ascii := "000"%char.

(** [name[:strings.IndexRune(name, 0)]] when a NUL is present. *)
Fixpoint untilNul (name : string) : string :=
  match name with
  | EmptyString => EmptyString
  | String c s' => if Ascii.eqb c nul then EmptyString else String c (untilNul s')
  end.

(** [strings.Replace] of every double quote by two of them. *)
Fixpoint doubleQuotes (name : string) : string :=
  match name with
  | EmptyString => EmptyString
  | String c s' =>
      if Ascii.eqb c dquote then String dquote (String dquote (doubleQuotes s'))
      else String c (doubleQuotes s')
  end.

Definition QuoteIdentifier (name : string) : string :=
  String dquote (doubleQuotes (untilNul name) +:+ String dquote EmptyString).

End pq.

(** ** The composite identifier of a role grant *)

(** [generateRoleGrantID]: ["role:%s:%s:%s"] over the three lowered
    fields. *)
Definition generateRoleGrantID (roleName grantToType grantToName : string) : string :=
  "role:" +:+ strings.ToLower roleName +:+ ":" +:+
  strings.ToLower grantToType +:+ ":" +:+ strings.ToLower grantToName.

(** The decoding step of [resourceRedshiftRoleGrantDelete]: split the
    identifier on [':'], refuse anything but four fields, and read the role,
    the kind and the grantee from fields 1, 2 and 3. *)
Definition splitRoleGrantID (id : string) : option (string * string * string) :=
  match strings.Split id ":"%char with
  | [_; roleName; grantToType; grantToName] => Some (roleName, grantToType, grantToName)
  | _ => None
  end.

(** The statement [resourceRedshiftRoleGrantCreate] builds; [grantToType]
    is already upper case there. *)
Definition grantRoleQuery (roleName grantToType grantToName : string) : string :=
  if String.eqb grantToType "USER" then
    "GRANT ROLE " +:+ pq.QuoteIdentifier roleName +:+ " TO " +:+
    pq.QuoteIdentifier grantToName
  else
    "GRANT ROLE " +:+ pq.QuoteIdentifier roleName +:+ " TO " +:+
    grantToType +:+ " " +:+ pq.QuoteIdentifier grantToName.

(** The statement [resourceRedshiftRoleGrantDelete] builds. *)
Definition revokeRoleQuery (roleName grantToType grantToName : string) : string :=
  if String.eqb grantToType "USER" then
    "REVOKE ROLE " +:+ pq.QuoteIdentifier roleName +:+ " FROM " +:+
    pq.QuoteIdentifier grantToName
  else
    "REVOKE ROLE " +:+ pq.QuoteIdentifier roleName +:+ " FROM " +:+
    grantToType +:+ " " +:+ pq.QuoteIdentifier grantToName.

(** The [ValidateFunc] of the [grant_to_type] attribute: [true] when it
    appends no error. *)
Definition validGrantToType (val : string) : bool :=
  let v := strings.ToLower val in
  negb (negb (String.eqb v "user") && negb (String.eqb v "group") && negb (String.eqb v "role")).

(** ** Errors

    The error values the provider meets: the two sentinels of
    [database/sql], a [*pq.Error] with its SQLSTATE code, a plain message
    ([fmt.Errorf] without [%w], [errors.New]) and [fmt.Errorf] with [%w],
    which keeps the cause. *)
Inductive error : Type :=
| ErrNoRows
| ErrTxDone
| PqError (code message : string)
| ErrorString (text : string)
| Wrapped (context : string) (cause : error).

(** [err.Error()]. *)
Fixpoint error_Error (e : error) : string :=
  match e with
  | ErrNoRows => "sql: no rows in result set"
  | ErrTxDone => "sql: transaction has already been committed or rolled back"
  | PqError _ message => "pq: " +:+ message
  | ErrorString text => text
  | Wrapped context cause => context +:+ ": " +:+ error_Error cause
  end.

(** [errors.Is(err, sql.ErrNoRows)]: the sentinel, at any depth of
    wrapping. *)
Fixpoint errors_Is_ErrNoRows (e : error) : bool :=
  match e with
  | ErrNoRows => true
  | Wrapped _ cause => errors_Is_ErrNoRows cause
  | _ => false
  end.

(** Modelled from the spec: [pgErrorCodeInsufficientPrivileges] is declared
    in a file of the provider that is not among the sources; the spec calls
    it the "insufficient privilege" failure class, SQLSTATE 42501. *)
Definition pgErrorCodeInsufficientPrivileges : string := "42501".

(** Modelled from the spec: [isPqErrorWithCode] is declared in a file of the
    provider that is not among the sources; it classifies a failure by its
    driver error code. *)
Definition isPqErrorWithCode (err : error) (code : string) : bool :=
  match err with
  | PqError c _ => String.eqb c code
  | _ => false
  end.

(** [%q] of [fmt.Errorf] for a name: the name between double quotes (the
    escapes of [strconv.Quote] are not needed for what follows). *)
Definition fmt_q (s : string) : string :=
  String pq.dquote (s +:+ String pq.dquote EmptyString).

(** ** The [database/sql] capability *)

Definition sqlDB := nat.
Definition sqlTx := nat.

(** Every call that reaches [database/sql]. *)
Inductive call : Type :=
| Open (driverName dsn : string)
| Ping (db : sqlDB)
| SetMaxIdleConns (db : sqlDB) (n : Z)
| SetMaxOpenConns (db : sqlDB) (n : Z)
| Query (db : sqlDB) (query : string)
| RowsClose (db : sqlDB) (query : string)
| QueryRow (db : sqlDB) (query : string) (args : list string)
| Begin (db : sqlDB)
| Exec (tx : sqlTx) (query : string)
| TxQueryRow (tx : sqlTx) (query : string) (args : list string)
| Commit (tx : sqlTx)
| Rollback (tx : sqlTx).

(** What [QueryRow(...)] followed by [Scan(&dest)] can give for a
    destination of type [A]: the query failed ([row.Err()] is set, and
    [Scan] returns it too), the scan failed ([sql.ErrNoRows] among others),
    or the destination received a value. *)
Inductive row (A : Type) : Type :=
| RowErr (e : error)
| ScanErr (e : error)
| Scanned (a : A).
Arguments RowErr {A} e.
Arguments ScanErr {A} e.
Arguments Scanned {A} a.

Definition row_Err {A} (r : row A) : option error :=
  match r with RowErr e => Some e | _ => None end.

Definition row_Scan {A} (r : row A) : error + A :=
  match r with
  | RowErr e => inl e
  | ScanErr e => inl e
  | Scanned a => inr a
  end.

(** The database behind [database/sql]: each method answers from the calls
    made so far. *)
Class Driver : Type := {
  sql_Open : list call -> string -> string -> error + sqlDB;
  sql_Ping : list call -> sqlDB -> option error;
  sql_Query : list call -> sqlDB -> string -> option error;
  sql_QueryRowString : list call -> sqlDB -> string -> list string -> row string;
  sql_QueryRowInt : list call -> sqlDB -> string -> list string -> row Z;
  sql_Begin : list call -> sqlDB -> error + sqlTx;
  sql_Exec : list call -> sqlTx -> string -> option error;
  sql_TxQueryRowString : list call -> sqlTx -> string -> list string -> row string;
  sql_TxQueryRowBool : list call -> sqlTx -> string -> list string -> row bool;
  sql_Commit : list call -> sqlTx -> option error;
  sql_Rollback : list call -> sqlTx -> option error
}.

(** [DBConnection]: the [*sql.DB] it embeds.  Its [client] field points
    back to the [Client] that made it, which the operations below receive
    as their own argument. *)
Record DBConnection : Type := { conn_DB : sqlDB }.

(** The process: the calls made so far and the package variable
    [dbRegistry]. *)
Record World : Type := {
  history : list call;
  dbRegistry : gmap string DBConnection
}.

Definition record (c : call) (w : World) : World :=
  {| history := history w ++ [c]; dbRegistry := dbRegistry w |}.

(** ** A state monad over the process *)

Definition M (A : Type) : Type := World -> A * World.

Definition ret {A} (a : A) : M A := fun w => (a, w).

Definition bind {A B} (m : M A) (f : A -> M B) : M B :=
  fun w => let (a, w') := m w in f a w'.

Notation "'let*' x ':=' m 'in' k" := (bind m (fun x => k))
  (at level 10, x pattern, m at level 100, k at level 200).

(** One call: the driver's answer to it, and the call appended. *)
Definition perform {A} (answer : list call -> A) (c : call) : M A :=
  fun w => (answer (history w), record c w).

Section Capability.
Context `{Driver}.

Definition db_Ping (db : DBConnection) : M (option error) :=
  perform (fun h => sql_Ping h (conn_DB db)) (Ping (conn_DB db)).

Definition db_Query (db : DBConnection) (query : string) : M (option error) :=
  perform (fun h => sql_Query h (conn_DB db) query) (Query (conn_DB db) query).

Definition rows_Close (db : DBConnection) (query : string) : M unit :=
  perform (fun _ => tt) (RowsClose (conn_DB db) query).

Definition db_QueryRowString (db : DBConnection) (query : string) (args : list string)
  : M (row string) :=
  perform (fun h => sql_QueryRowString h (conn_DB db) query args)
          (QueryRow (conn_DB db) query args).

Definition db_QueryRowInt (db : DBConnection) (query : string) (args : list string)
  : M (row Z) :=
  perform (fun h => sql_QueryRowInt h (conn_DB db) query args)
          (QueryRow (conn_DB db) query args).

Definition db_Begin (db : DBConnection) : M (error + sqlTx) :=
  perform (fun h => sql_Begin h (conn_DB db)) (Begin (conn_DB db)).

Definition tx_Exec (tx : sqlTx) (query : string) : M (option error) :=
  perform (fun h => sql_Exec h tx query) (Exec tx query).

Definition tx_QueryRowString (tx : sqlTx) (query : string) (args : list string)
  : M (row string) :=
  perform (fun h => sql_TxQueryRowString h tx query args) (TxQueryRow tx query args).

Definition tx_QueryRowBool (tx : sqlTx) (query : string) (args : list string)
  : M (row bool) :=
  perform (fun h => sql_TxQueryRowBool h tx query args) (TxQueryRow tx query args).

Definition tx_Commit (tx : sqlTx) : M (option error) :=
  perform (fun h => sql_Commit h tx) (Commit tx).

Definition tx_Rollback (tx : sqlTx) : M (option error) :=
  perform (fun h => sql_Rollback h tx) (Rollback tx).

(** Modelled from the spec: [startTransaction] is declared in a file of
    the provider that is not among the sources.  The spec: begin a
    transaction; if begin fails, return that error without running the
    body. *)
Definition startTransaction (db : DBConnection) : M (error + sqlTx) :=
  db_Begin db.

(** Modelled from the spec: [deferredRollback] is declared in a file of
    the provider that is not among the sources.  The spec: an
    unconditional rollback attempt, whose outcome is not returned; after a
    commit it is a no-op of the driver ([sql.ErrTxDone]). *)
Definition deferredRollback (tx : sqlTx) : M unit :=
  let* _ := tx_Rollback tx in ret tt.

(** [defer deferredRollback(tx)] around the rest of a function body: the
    body's result is what the function returns, after the rollback
    attempt. *)
Definition deferring {A} (tx : sqlTx) (body : M A) : M A :=
  let* res := body in
  let* _ := deferredRollback tx in
  ret res.

End Capability.

(** ** [config.go] *)

(** [Config], without its two mutexes. *)
Record Config : Type := {
  DriverName : string;
  ConnStr : string;
  Database : string;
  MaxConns : Z;
  isServerless : bool;
  checkedForServerless : bool;
  retrievedUsername : string
}.

Definition NewConfig (driverName connStr database : string) (maxConns : Z) : Config :=
  {| DriverName := driverName; ConnStr := connStr; Database := database;
     MaxConns := maxConns;
     isServerless := false; checkedForServerless := false; retrievedUsername := "" |}.

Definition set_checkedForServerless (c : Config) (b : bool) : Config :=
  {| DriverName := DriverName c; ConnStr := ConnStr c; Database := Database c;
     MaxConns := MaxConns c;
     isServerless := isServerless c; checkedForServerless := b;
     retrievedUsername := retrievedUsername c |}.

Definition set_isServerless (c : Config) (b : bool) : Config :=
  {| DriverName := DriverName c; ConnStr := ConnStr c; Database := Database c;
     MaxConns := MaxConns c;
     isServerless := b; checkedForServerless := checkedForServerless c;
     retrievedUsername := retrievedUsername c |}.

Definition set_retrievedUsername (c : Config) (u : string) : Config :=
  {| DriverName := DriverName c; ConnStr := ConnStr c; Database := Database c;
     MaxConns := MaxConns c;
     isServerless := isServerless c; checkedForServerless := checkedForServerless c;
     retrievedUsername := u |}.

(** [Client]: its own copy of the [Config] ([config: *c] in [NewClient]).
    The [db] field is only read by [Close]. *)
Record Client : Type := { config : Config }.

Definition NewClient (c : Config) : Client := {| config := c |}.

Definition probeServerless : string := "SELECT 1 FROM SYS_SERVERLESS_USAGE".
Definition probeProvisioned : string := "SELECT 1 FROM SVL_QUERY_SUMMARY".
Definition currentUserQuery : string := "SELECT current_user;".

Section ConfigOps.
Context `{Driver}.

(** [(c *Config) IsServerless(db)]: the receiver is returned with the
    fields the call assigned. *)
Definition IsServerless (c : Config) (db : DBConnection)
  : M (Config * (bool * option error)) :=
  if checkedForServerless c then ret (c, (isServerless c, None))
  else
    let c := set_checkedForServerless c true in
    let* err := db_Query db probeServerless in
    match err with
    | None =>
        let c := set_isServerless c true in
        let* _ := rows_Close db probeServerless in
        ret (c, (true, None))
    | Some err =>
        if isPqErrorWithCode err pgErrorCodeInsufficientPrivileges then
          let* err2 := db_Query db probeProvisioned in
          match err2 with
          | Some _ => ret (set_isServerless c true, (true, None))
          | None => ret (set_isServerless c false, (false, None))
          end
        else ret (c, (false, Some err))
    end.

(** [(c *Config) GetUsername(db)]. *)
Definition GetUsername (c : Config) (db : DBConnection)
  : M (Config * (string * option error)) :=
  if negb (String.eqb (retrievedUsername c) "") then ret (c, (retrievedUsername c, None))
  else if negb (String.eqb (retrievedUsername c) "") then ret (c, (retrievedUsername c, None))
  else
    let* row := db_QueryRowString db currentUserQuery [] in
    match row_Err row with
    | Some err => ret (c, ("", Some (Wrapped "error retrieving current user" err)))
    | None =>
        match row_Scan row with
        | inl err => ret (c, ("", Some (Wrapped "error scanning current user" err)))
        | inr username =>
            let c := set_retrievedUsername c username in
            ret (c, (retrievedUsername c, None))
        end
    end.

Definition registry_lookup (dsn : string) : M (option DBConnection) :=
  fun w => (dbRegistry w !! dsn, w).

Definition registry_store (dsn : string) (conn : DBConnection) : M unit :=
  fun w => (tt, {| history := history w; dbRegistry := <[dsn := conn]> (dbRegistry w) |}).

Definition sql_open (driverName dsn : string) : M (error + sqlDB) :=
  perform (fun h => sql_Open h driverName dsn) (Open driverName dsn).

Definition db_SetMaxIdleConns (db : sqlDB) (n : Z) : M unit :=
  perform (fun _ => tt) (SetMaxIdleConns db n).

Definition db_SetMaxOpenConns (db : sqlDB) (n : Z) : M unit :=
  perform (fun _ => tt) (SetMaxOpenConns db n).

(** [!found || conn.Ping() != nil]: the liveness probe is only made on a
    handle that was found. *)
Definition mustCreate (found : option DBConnection) : M bool :=
  match found with
  | None => ret true
  | Some conn =>
      let* err := db_Ping conn in
      ret (match err with Some _ => true | None => false end)
  end.

(** [(c *Client) Connect()]: the client is returned with the [Config]
    that [GetUsername] may have updated. *)
Definition Connect (c : Client) : M (Client * (error + DBConnection)) :=
  let dsn := ConnStr (config c) in
  let driverName := DriverName (config c) in
  let* found := registry_lookup dsn in
  let* create := mustCreate found in
  match create, found with
  | false, Some conn => ret (c, inr conn)
  | _, _ =>
      let* opened := sql_open driverName dsn in
      match opened with
      | inl err =>
          ret (c, inl (Wrapped ("error creating Redshift driver instance (driver: "
                                +:+ fmt_q driverName +:+ ")") err))
      | inr db =>
          let* _ := db_SetMaxIdleConns db 0 in
          let* _ := db_SetMaxOpenConns db (MaxConns (config c)) in
          let conn := {| conn_DB := db |} in
          let* (cfg, (_, err)) := GetUsername (config c) conn in
          let c := {| config := cfg |} in
          match err with
          | Some err =>
              ret (c, inl (Wrapped ("error retrieving username from Redshift database (driver: "
                                    +:+ fmt_q driverName +:+ ")") err))
          | None =>
              let* _ := registry_store dsn conn in
              ret (c, inr conn)
          end
      end
  end.

End ConfigOps.

(** ** [schema.ResourceData]

    What the resource functions use of it: the identifier, the attribute
    values [d.Get] reads and [d.Set] writes, and the prior state that
    [d.HasChange] and [d.GetChange] compare them with.  An attribute that
    is not set reads as the empty string. *)
Record ResourceData : Type := {
  rd_Id : string;
  rd_attrs : gmap string string;
  rd_state : gmap string string
}.

Definition rd_Get (d : ResourceData) (key : string) : string :=
  default "" (rd_attrs d !! key).

Definition rd_SetId (d : ResourceData) (id : string) : ResourceData :=
  {| rd_Id := id; rd_attrs := rd_attrs d; rd_state := rd_state d |}.

Definition rd_Set (d : ResourceData) (key value : string) : ResourceData :=
  {| rd_Id := rd_Id d; rd_attrs := <[key := value]> (rd_attrs d); rd_state := rd_state d |}.

Definition rd_GetChange (d : ResourceData) (key : string) : string * string :=
  (default "" (rd_state d !! key), rd_Get d key).

Definition rd_HasChange (d : ResourceData) (key : string) : bool :=
  negb (String.eqb (fst (rd_GetChange d key)) (snd (rd_GetChange d key))).

(** ** The role-grant resource *)

Definition roleGrantRoleNameAttr : string := "role_name".
Definition roleGrantGrantToTypeAttr : string := "grant_to_type".
Definition roleGrantGrantToNameAttr : string := "grant_to_name".

Definition userGrantsQuery : string := "
			SELECT 1
			FROM SVV_USER_GRANTS
			WHERE LOWER(role_name) = LOWER($1)
			AND LOWER(user_name) = LOWER($2)
		".

Definition roleGrantsQuery : string := "
			SELECT 1
			FROM SVV_ROLE_GRANTS
			WHERE LOWER(granted_role_name) = LOWER($1)
			AND LOWER(role_name) = LOWER($2)
		".

(** The [switch] of [resourceRedshiftRoleGrantRead] on the upper-cased
    kind. *)
Inductive readPlan : Type :=
| ReadQuery (query : string)
| ReadTrustState
| ReadUnsupported.

Definition grantReadPlan (grantToType : string) : readPlan :=
  let k := strings.ToUpper grantToType in
  if String.eqb k "USER" then ReadQuery userGrantsQuery
  else if String.eqb k "ROLE" then ReadQuery roleGrantsQuery
  else if String.eqb k "GROUP" then ReadTrustState
  else ReadUnsupported.

Section RoleGrant.
Context `{Driver}.

Definition resourceRedshiftRoleGrantRead (db : DBConnection) (d : ResourceData)
  : M (ResourceData * option error) :=
  let roleName := rd_Get d roleGrantRoleNameAttr in
  let grantToType := rd_Get d roleGrantGrantToTypeAttr in
  let grantToName := rd_Get d roleGrantGrantToNameAttr in
  match grantReadPlan grantToType with
  | ReadTrustState => ret (d, None)
  | ReadUnsupported =>
      ret (d, Some (ErrorString ("unsupported grant_to_type: " +:+ grantToType)))
  | ReadQuery query =>
      let* row := db_QueryRowInt db query [roleName; grantToName] in
      match row_Scan row with
      | inl err =>
          if errors_Is_ErrNoRows err then ret (rd_SetId d "", None)
          else ret (d, Some (Wrapped "error reading role grant" err))
      | inr _ => ret (d, None)
      end
  end.

Definition resourceRedshiftRoleGrantCreate (db : DBConnection) (d : ResourceData)
  : M (ResourceData * option error) :=
  let roleName := rd_Get d roleGrantRoleNameAttr in
  let grantToType := strings.ToUpper (rd_Get d roleGrantGrantToTypeAttr) in
  let grantToName := rd_Get d roleGrantGrantToNameAttr in
  let* started := startTransaction db in
  match started with
  | inl err => ret (d, Some err)
  | inr tx =>
      deferring tx (
        let query := grantRoleQuery roleName grantToType grantToName in
        let* err := tx_Exec tx query in
        match err with
        | Some err => ret (d, Some (Wrapped "could not grant role" err))
        | None =>
            let* err := tx_Commit tx in
            match err with
            | Some err => ret (d, Some (Wrapped "could not commit transaction" err))
            | None =>
                let d := rd_SetId d (generateRoleGrantID roleName grantToType grantToName) in
                resourceRedshiftRoleGrantRead db d
            end
        end)
  end.

Definition resourceRedshiftRoleGrantDelete (db : DBConnection) (d : ResourceData)
  : M (ResourceData * option error) :=
  match splitRoleGrantID (rd_Id d) with
  | None =>
      ret (d, Some (ErrorString ("invalid role grant ID format: " +:+ rd_Id d)))
  | Some (roleName, kind, grantToName) =>
      let grantToType := strings.ToUpper kind in
      let* started := startTransaction db in
      match started with
      | inl err => ret (d, Some err)
      | inr tx =>
          deferring tx (
            let query := revokeRoleQuery roleName grantToType grantToName in
            let* err := tx_Exec tx query in
            match err with
            | Some err =>
                if strings.Contains (error_Error err) "does not exist" then
                  let* err := tx_Commit tx in
                  match err with
                  | Some err => ret (d, Some (Wrapped "could not commit transaction" err))
                  | None => ret (d, None)
                  end
                else ret (d, Some (Wrapped "could not revoke role" err))
            | None =>
                let* err := tx_Commit tx in
                match err with
                | Some err => ret (d, Some (Wrapped "could not commit transaction" err))
                | None => ret (d, None)
                end
            end)
      end
  end.

End RoleGrant.

(** ** The role resource *)

Definition roleNameAttr : string := "name".

Definition selectRoleQuery : string :=
  "SELECT role_name FROM SVV_ROLES WHERE role_name = $1".
Definition roleExistsQuery : string :=
  "SELECT EXISTS(SELECT 1 FROM SVV_ROLES WHERE role_name = $1)".

Section Role.
Context `{Driver}.

Definition resourceRedshiftRoleRead (db : DBConnection) (d : ResourceData)
  : M (ResourceData * option error) :=
  let* row := db_QueryRowString db selectRoleQuery [rd_Id d] in
  match row_Scan row with
  | inl err =>
      if errors_Is_ErrNoRows err then ret (rd_SetId d "", None)
      else ret (d, Some (Wrapped "error reading role" err))
  | inr roleName => ret (rd_Set d roleNameAttr roleName, None)
  end.

Definition resourceRedshiftRoleCreate (db : DBConnection) (d : ResourceData)
  : M (ResourceData * option error) :=
  let roleName := rd_Get d roleNameAttr in
  let* started := startTransaction db in
  match started with
  | inl err => ret (d, Some err)
  | inr tx =>
      deferring tx (
        let query := "CREATE ROLE " +:+ pq.QuoteIdentifier roleName in
        let* err := tx_Exec tx query in
        match err with
        | Some err => ret (d, Some (Wrapped "could not create redshift role" err))
        | None =>
            let* row := tx_QueryRowString tx selectRoleQuery [strings.ToLower roleName] in
            match row_Scan row with
            | inl err =>
                ret (d, Some (Wrapped ("could not verify role creation for "
                                       +:+ fmt_q roleName) err))
            | inr _ =>
                let d := rd_SetId d (strings.ToLower roleName) in
                let* err := tx_Commit tx in
                match err with
                | Some err => ret (d, Some (Wrapped "could not commit transaction" err))
                | None => resourceRedshiftRoleRead db d
                end
            end
        end)
  end.

Definition resourceRedshiftRoleUpdate (db : DBConnection) (d : ResourceData)
  : M (ResourceData * option error) :=
  if rd_HasChange d roleNameAttr then
    let (oldName, newName) := rd_GetChange d roleNameAttr in
    let* started := startTransaction db in
    match started with
    | inl err => ret (d, Some err)
    | inr tx =>
        deferring tx (
          let query := "ALTER ROLE " +:+ pq.QuoteIdentifier oldName +:+
                       " RENAME TO " +:+ pq.QuoteIdentifier newName in
          let* err := tx_Exec tx query in
          match err with
          | Some err => ret (d, Some (Wrapped "error renaming role" err))
          | None =>
              let* err := tx_Commit tx in
              match err with
              | Some err => ret (d, Some (Wrapped "could not commit transaction" err))
              | None =>
                  let d := rd_SetId d (strings.ToLower newName) in
                  resourceRedshiftRoleRead db d
              end
          end)
    end
  else resourceRedshiftRoleRead db d.

Definition resourceRedshiftRoleDelete (db : DBConnection) (d : ResourceData)
  : M (ResourceData * option error) :=
  let* started := startTransaction db in
  match started with
  | inl err => ret (d, Some err)
  | inr tx =>
      deferring tx (
        let* row := tx_QueryRowBool tx roleExistsQuery [rd_Id d] in
        match row_Scan row with
        | inl err => ret (d, Some err)
        | inr false => ret (d, None)
        | inr true =>
            let query := "DROP ROLE " +:+ pq.QuoteIdentifier (rd_Id d) in
            let* err := tx_Exec tx query in
            match err with
            | Some err => ret (d, Some (Wrapped "error dropping role" err))
            | None =>
                let* err := tx_Commit tx in
                match err with
                | Some err => ret (d, Some (Wrapped "could not commit transaction" err))
                | None => ret (d, None)
                end
            end
        end)
  end.

End Role.

(** ** Reading a history *)

(** The handles on which the identity query of [GetUsername] was issued. *)
Definition identityLookups (h : list call) : list sqlDB :=
  omap (fun c => match c with
                 | QueryRow db query _ =>
                     if String.eqb query currentUserQuery then Some db else None
                 | _ => None
                 end) h.

(** The statements sent with [tx.Exec]. *)
Definition executed (h : list call) : list string :=
  omap (fun c => match c with Exec _ query => Some query | _ => None end) h.

(** The transactions on which [Commit] was called. *)
Definition committed (h : list call) : list sqlTx :=
  omap (fun c => match c with Commit tx => Some tx | _ => None end) h.

(** The calls an operation added to the history it started from. *)
Definition issued (before after : World) : list call :=
  drop (List.length (history before)) (history after).

(** The calls of a [Connect] that opens the handle [db], after the calls
    [probe] of the liveness check. *)
Definition creationCalls (c : Client) (probe : list call) (db : sqlDB) : list call :=
  probe ++
  [Open (DriverName (config c)) (ConnStr (config c));
   SetMaxIdleConns db 0;
   SetMaxOpenConns db (MaxConns (config c))] ++
  (if String.eqb (retrievedUsername (config c)) ""
   then [QueryRow db currentUserQuery []] else []).

(** A caller that asks [IsServerless] once per connection of [dbs], in
    order, on the same [Config]. *)
Fixpoint IsServerless_each `{Driver} (dbs : list DBConnection) (c : Config)
  : M (Config * list (bool * option error)) :=
  match dbs with
  | [] => ret (c, [])
  | db :: dbs' =>
      let* (c1, r) := IsServerless c db in
      let* (c2, rs) := IsServerless_each dbs' c1 in
      ret (c2, r :: rs)
  end.

(** ** Databases for the examples *)

(** A name between double quotes. *)
Definition quoted (s : string) : string :=
  String pq.dquote (s +:+ String pq.dquote EmptyString).

(** The answers of a scripted database. *)
Record Answers : Type := {
  on_Ping : option error;
  on_probeServerless : option error;
  on_probeProvisioned : option error;
  on_string : row string;
  on_int : row Z;
  on_bool : row bool;
  on_Exec : option error;
  on_Commit : option error
}.

(** A database that gives the scripted answers; a handle or a transaction
    is numbered by the calls made before it was opened. *)
Definition scripted (a : Answers) : Driver := {|
  sql_Open := fun h _ _ => inr (List.length h);
  sql_Ping := fun _ _ => on_Ping a;
  sql_Query := fun _ _ query =>
    if String.eqb query probeServerless then on_probeServerless a
    else on_probeProvisioned a;
  sql_QueryRowString := fun _ _ _ _ => on_string a;
  sql_QueryRowInt := fun _ _ _ _ => on_int a;
  sql_Begin := fun h _ => inr (List.length h);
  sql_Exec := fun _ _ _ => on_Exec a;
  sql_TxQueryRowString := fun _ _ _ _ => on_string a;
  sql_TxQueryRowBool := fun _ _ _ _ => on_bool a;
  sql_Commit := fun _ _ => on_Commit a;
  sql_Rollback := fun _ _ => None
|}.

(** Every call succeeds; the role and the grant exist. *)
Definition healthy : Answers := {|
  on_Ping := None;
  on_probeServerless := None;
  on_probeProvisioned := None;
  on_string := Scanned "admin";
  on_int := Scanned 1%Z;
  on_bool := Scanned true;
  on_Exec := None;
  on_Commit := None
|}.

Definition emptyWorld : World := {| history := []; dbRegistry := ∅ |}.

Definition resource (id : string) (attrs : list (string * string)) : ResourceData :=
  {| rd_Id := id; rd_attrs := list_to_map attrs; rd_state := ∅ |}.

Definition insufficientPrivileges : error :=
  PqError pgErrorCodeInsufficientPrivileges "permission denied for relation sys_serverless_usage".

(** A provisioned cluster: the serverless view is forbidden, the provisioned
    one answers. *)
Definition provisioned : Answers := {|
  on_Ping := None;
  on_probeServerless := Some insufficientPrivileges;
  on_probeProvisioned := None;
  on_string := Scanned "admin";
  on_int := Scanned 1%Z;
  on_bool := Scanned true;
  on_Exec := None;
  on_Commit := None
|}.

(** A database that cannot be reached when the probe is sent. *)
Definition unreachable : Answers := {|
  on_Ping := Some (ErrorString "driver: bad connection");
  on_probeServerless := Some (ErrorString "driver: bad connection");
  on_probeProvisioned := Some (ErrorString "driver: bad connection");
  on_string := Scanned "admin";
  on_int := Scanned 1%Z;
  on_bool := Scanned true;
  on_Exec := None;
  on_Commit := None
|}.

Definition devConfig : Config := NewConfig "postgres" "host=example dbname=dev" "dev" 20.
Definition conn0 : DBConnection := {| conn_DB := 0 |}.

(** A database whose registered handles have gone stale: every ping
    fails. *)
Definition stale : Answers := {|
  on_Ping := Some (ErrorString "driver: bad connection");
  on_probeServerless := None;
  on_probeProvisioned := None;
  on_string := Scanned "admin";
  on_int := Scanned 1%Z;
  on_bool := Scanned true;
  on_Exec := None;
  on_Commit := None
|}.

(** The granted role is gone: the grant query and the role query find no
    row. *)
Definition dropped : Answers := {|
  on_Ping := None;
  on_probeServerless := None;
  on_probeProvisioned := None;
  on_string := ScanErr ErrNoRows;
  on_int := ScanErr ErrNoRows;
  on_bool := Scanned false;
  on_Exec := Some (PqError "42704" "role analyst does not exist");
  on_Commit := None
|}.

Definition groupGrant : ResourceData :=
  resource "role:analyst:group:staff"
    [("role_name", "analyst"); ("grant_to_type", "group"); ("grant_to_name", "staff")].

Definition roleGrant : ResourceData :=
  resource "role:analyst:role:manager"
    [("role_name", "analyst"); ("grant_to_type", "role"); ("grant_to_name", "manager")].


Definition newRole : ResourceData := resource "" [("name", "Analyst")].
Definition analystRole : ResourceData := resource "analyst" [("name", "analyst")].

(** REVOKE and GRANT are refused for a reason other than a missing role. *)
Definition denied : Answers := {|
  on_Ping := None;
  on_probeServerless := None;
  on_probeProvisioned := None;
  on_string := Scanned "analyst";
  on_int := Scanned 1%Z;
  on_bool := Scanned true;
  on_Exec := Some (PqError "42501" "permission denied");
  on_Commit := None
|}.

(** The session has no user name: the identity query scans the empty
    string. *)
Definition nameless : Answers := {|
  on_Ping := None;
  on_probeServerless := None;
  on_probeProvisioned := None;
  on_string := Scanned "";
  on_int := Scanned 1%Z;
  on_bool := Scanned true;
  on_Exec := None;
  on_Commit := None
|}.

(** Queries for one row fail on the wire. *)
Definition rowsFail : Answers := {|
  on_Ping := None;
  on_probeServerless := None;
  on_probeProvisioned := None;
  on_string := RowErr (ErrorString "driver: bad connection");
  on_int := RowErr (ErrorString "driver: bad connection");
  on_bool := RowErr (ErrorString "driver: bad connection");
  on_Exec := None;
  on_Commit := None
|}.

(** A database that cannot be reached at all: no handle opens, no
    transaction begins. *)
Definition offline : Driver := {|
  sql_Open := fun _ _ _ => inl (ErrorString "sql: unknown driver");
  sql_Ping := fun _ _ => Some (ErrorString "driver: bad connection");
  sql_Query := fun _ _ _ => Some (ErrorString "driver: bad connection");
  sql_QueryRowString := fun _ _ _ _ => RowErr (ErrorString "driver: bad connection");
  sql_QueryRowInt := fun _ _ _ _ => RowErr (ErrorString "driver: bad connection");
  sql_Begin := fun _ _ => inl (ErrorString "driver: bad connection");
  sql_Exec := fun _ _ _ => Some (ErrorString "driver: bad connection");
  sql_TxQueryRowString := fun _ _ _ _ => RowErr (ErrorString "driver: bad connection");
  sql_TxQueryRowBool := fun _ _ _ _ => RowErr (ErrorString "driver: bad connection");
  sql_Commit := fun _ _ => Some (ErrorString "driver: bad connection");
  sql_Rollback := fun _ _ => Some (ErrorString "driver: bad connection")
|}.

Definition userGrant : ResourceData :=
  resource ""
    [("role_name", "Analyst"); ("grant_to_type", "User"); ("grant_to_name", "Bob")].


Definition colonGrant : ResourceData := resource "role:a:b:user:x" [].


(** A role whose configured name is the recorded one. *)
Definition sameRole : ResourceData :=
  {| rd_Id := "analyst";
     rd_attrs := {[ "name" := "analyst" ]};
     rd_state := {[ "name" := "analyst" ]} |}.

(** The role read back is [reporter]. *)
Definition reporterDb : Answers := {|
  on_Ping := None;
  on_probeServerless := None;
  on_probeProvisioned := None;
  on_string := Scanned "reporter";
  on_int := Scanned 1%Z;
  on_bool := Scanned true;
  on_Exec := None;
  on_Commit := None
|}.


Definition otherClient : Client :=
  NewClient (NewConfig "postgres" "host=example dbname=dev" "dev" 5).

(** The calls of an operation that began the transaction [tx] end with the
    rollback attempt on [tx], and hold at most one commit, which is on
    [tx]. *)
Definition closes (tx : sqlTx) (calls : list call) : Prop :=
  last calls = Some (Rollback tx) /\
  (committed calls = [] \/ committed calls = [tx]).

(** * Properties *)

(** ** Strings *)

Module strings_facts.
Import strings.


Lemma upperByte_lowerByte (c : ascii) : upperByte (lowerByte c) = upperByte c.
Proof. destruct c as [[] [] [] [] [] [] [] []]; reflexivity. Qed.

Lemma lowerByte_idem (c : ascii) : lowerByte (lowerByte c) = lowerByte c.
Proof. destruct c as [[] [] [] [] [] [] [] []]; reflexivity. Qed.

Lemma ToUpper_ToLower (s : string) : ToUpper (ToLower s) = ToUpper s.
Proof.
  unfold ToUpper, ToLower.
  induction s as [|c s IH]; simpl; [reflexivity|].
  now rewrite upperByte_lowerByte, IH.
Qed.

Lemma ToLower_idem (s : string) : ToLower (ToLower s) = ToLower s.
Proof.
  unfold ToLower.
  induction s as [|c s IH]; simpl; [reflexivity|].
  now rewrite lowerByte_idem, IH.
Qed.


Lemma append_nil (t : string) : "" +:+ t = t.
Proof. reflexivity. Qed.

Lemma append_String (c : ascii) (s t : string) :
  String c s +:+ t = String c (s +:+ t).
Proof. reflexivity. Qed.






Lemma append_inj_l (s a b : string) : s +:+ a = s +:+ b -> a = b.
Proof.
  induction s as [|c s IH]; rewrite ?append_nil, ?append_String; [easy|].
  intros [= E]. auto.
Qed.

End strings_facts.

(** ** The composite identifier *)

Example generateRoleGrantID_manager :
  generateRoleGrantID "analyst" "ROLE" "Manager" = "role:analyst:role:manager".
Proof. reflexivity. Qed.

Example splitRoleGrantID_manager :
  splitRoleGrantID "role:analyst:role:manager" = Some ("analyst", "role", "manager").
Proof. reflexivity. Qed.







(** ** The GRANT ROLE and REVOKE ROLE statements *)

Example QuoteIdentifier_plain : pq.QuoteIdentifier "analyst" = quoted "analyst".
Proof. reflexivity. Qed.

Example grantRoleQuery_user :
  grantRoleQuery "analyst" "USER" "bob" =
  "GRANT ROLE " +:+ quoted "analyst" +:+ " TO " +:+ quoted "bob".
Proof. reflexivity. Qed.

Example revokeRoleQuery_group :
  revokeRoleQuery "analyst" "GROUP" "staff" =
  "REVOKE ROLE " +:+ quoted "analyst" +:+ " FROM GROUP " +:+ quoted "staff".
Proof. reflexivity. Qed.

Lemma validGrantToType_cases (k : string) :
  validGrantToType k = true ->
  strings.ToLower k = "user" \/ strings.ToLower k = "role" \/ strings.ToLower k = "group".
Proof.
  unfold validGrantToType. cbv zeta.
  destruct (String.eqb_spec (strings.ToLower k) "user") as [->|_]; [auto|].
  destruct (String.eqb_spec (strings.ToLower k) "group") as [->|_]; [auto|].
  destruct (String.eqb_spec (strings.ToLower k) "role") as [->|_]; [auto|].
  discriminate.
Qed.

(** A quoted identifier starts with the double quote, so no keyword can be
    mistaken for it. *)
Lemma keyword_not_quoted (kw : string) (c : ascii) (n : string) :
  c <> pq.dquote -> String c kw +:+ pq.QuoteIdentifier n <> pq.QuoteIdentifier n.
Proof.
  intros Hc. unfold pq.QuoteIdentifier. rewrite strings_facts.append_String.
  intros [= E]. contradiction.
Qed.

Lemma keywords_differ (c1 c2 : ascii) (kw1 kw2 n : string) :
  c1 <> c2 -> String c1 kw1 +:+ n <> String c2 kw2 +:+ n.
Proof. intros Hc. rewrite !strings_facts.append_String. intros [= E]. contradiction. Qed.

Lemma statement_tail_inj (verb role preposition a b : string) :
  verb +:+ role +:+ preposition +:+ a = verb +:+ role +:+ preposition +:+ b -> a = b.
Proof. intros E. now do 3 apply strings_facts.append_inj_l in E. Qed.

Ltac refute_statement E n :=
  exfalso; apply statement_tail_inj in E;
  first
    [ exact (keyword_not_quoted "OLE " "R" n ltac:(discriminate) E)
    | exact (keyword_not_quoted "ROUP " "G" n ltac:(discriminate) E)
    | exact (keyword_not_quoted "OLE " "R" n ltac:(discriminate) (eq_sym E))
    | exact (keyword_not_quoted "ROUP " "G" n ltac:(discriminate) (eq_sym E))
    | exact (keywords_differ "R" "G" "OLE " "ROUP " (pq.QuoteIdentifier n)
               ltac:(discriminate) E)
    | exact (keywords_differ "G" "R" "ROUP " "OLE " (pq.QuoteIdentifier n)
               ltac:(discriminate) E) ].

(** The shape of the two statements, by the kind. *)
Lemma statement_kind_keyword (r k n : string) :
  validGrantToType k = true ->
  let K := strings.ToUpper k in
  let Qr := pq.QuoteIdentifier r in
  let Qn := pq.QuoteIdentifier n in
  (strings.ToLower k = "user" <->
     grantRoleQuery r K n = "GRANT ROLE " +:+ Qr +:+ " TO " +:+ Qn) /\
  (strings.ToLower k = "role" <->
     grantRoleQuery r K n = "GRANT ROLE " +:+ Qr +:+ " TO " +:+ "ROLE " +:+ Qn) /\
  (strings.ToLower k = "group" <->
     grantRoleQuery r K n = "GRANT ROLE " +:+ Qr +:+ " TO " +:+ "GROUP " +:+ Qn) /\
  (strings.ToLower k = "user" <->
     revokeRoleQuery r K n = "REVOKE ROLE " +:+ Qr +:+ " FROM " +:+ Qn) /\
  (strings.ToLower k = "role" <->
     revokeRoleQuery r K n = "REVOKE ROLE " +:+ Qr +:+ " FROM " +:+ "ROLE " +:+ Qn) /\
  (strings.ToLower k = "group" <->
     revokeRoleQuery r K n = "REVOKE ROLE " +:+ Qr +:+ " FROM " +:+ "GROUP " +:+ Qn).
Proof.
  intros Hv K Qr Qn.
  pose proof (strings_facts.ToUpper_ToLower k) as HK. subst K Qr Qn.
  destruct (validGrantToType_cases k Hv) as [E|[E|E]]; rewrite E in *;
    match type of HK with
    | ?l = _ => let v := eval vm_compute in l in change l with v in HK
    end;
    rewrite <- HK; unfold grantRoleQuery, revokeRoleQuery;
    cbn [String.eqb Ascii.eqb Bool.eqb];
    repeat split; intros H; try reflexivity; try discriminate H;
    refute_statement H n.
Qed.

(** ** Serverless detection *)

Section IsServerless_facts.
Context `{Driver}.

(** On a [Config] that was checked, the call returns the stored flag and
    touches nothing. *)
Lemma IsServerless_checked (c : Config) (db : DBConnection) (w : World) :
  checkedForServerless c = true ->
  IsServerless c db w = ((c, (isServerless c, None)), w).
Proof. intros Hc. unfold IsServerless. now rewrite Hc. Qed.

(** Whatever the first call meets, it leaves the [Config] checked. *)
Lemma IsServerless_sets_checked (c : Config) (db : DBConnection) (w : World) :
  checkedForServerless (fst (fst (IsServerless c db w))) = true.
Proof.
  unfold IsServerless.
  destruct (checkedForServerless c) eqn:Hc; [exact Hc|].
  unfold bind, db_Query, rows_Close, perform, ret; simpl.
  destruct (sql_Query (history w) (conn_DB db) probeServerless) as [err|]; simpl;
    [|reflexivity].
  destruct (isPqErrorWithCode err pgErrorCodeInsufficientPrivileges); simpl;
    [|reflexivity].
  now destruct (sql_Query _ (conn_DB db) probeProvisioned).
Qed.

(** C4.  The first call on a [Config]: [true] when the serverless probe
    succeeds; on an insufficient-privileges failure a second probe, against
    the provisioned view, is issued, and the result is [true] exactly when
    that one fails, [false] when it succeeds; any other failure of the first
    probe is returned, with [false]. *)
Theorem IsServerless_first_call (c : Config) (db : DBConnection) (w : World) :
  checkedForServerless c = false ->
  let h := history w in
  let first := sql_Query h (conn_DB db) probeServerless in
  let second :=
    sql_Query (h ++ [Query (conn_DB db) probeServerless]) (conn_DB db) probeProvisioned in
  let out := IsServerless c db w in
  let result := snd (fst out) in
  let stored := isServerless (fst (fst out)) in
  let calls := issued w (snd out) in
  (first = None ->
     result = (true, None) /\ stored = true /\
     calls = [Query (conn_DB db) probeServerless; RowsClose (conn_DB db) probeServerless]) /\
  (forall err, first = Some err ->
     isPqErrorWithCode err pgErrorCodeInsufficientPrivileges = true ->
     calls = [Query (conn_DB db) probeServerless; Query (conn_DB db) probeProvisioned] /\
     (second <> None -> result = (true, None) /\ stored = true) /\
     (second = None -> result = (false, None) /\ stored = false)) /\
  (forall err, first = Some err ->
     isPqErrorWithCode err pgErrorCodeInsufficientPrivileges = false ->
     result = (false, Some err) /\ stored = isServerless c /\
     calls = [Query (conn_DB db) probeServerless]).
Proof.
  intros Hc h first second out result stored calls.
  subst out result stored calls first second h.
  unfold IsServerless, issued. rewrite Hc.
  unfold bind, db_Query, rows_Close, perform, ret; simpl.
  split; [|split].
  - intros E. rewrite E. simpl.
    rewrite <- app_assoc, drop_app_length. auto.
  - intros err E Hp. rewrite E, Hp. simpl.
    destruct (sql_Query _ (conn_DB db) probeProvisioned) as [err2|]; simpl;
      rewrite <- app_assoc, drop_app_length; (split; [reflexivity|]); split;
      try easy.
  - intros err E Hp. rewrite E, Hp. simpl.
    rewrite drop_app_length. auto.
Qed.

(** C5.  Once a call has gone through the probe path, with a flag or with
    an error, the [Config] is checked, and every later call on it, on any
    connection and in any state of the process, returns the stored flag with
    no error, makes no call to the database and leaves the [Config] as it
    is. *)
Theorem IsServerless_computed_once (c : Config) (db : DBConnection) (w : World) :
  checkedForServerless c = false ->
  let c1 := fst (fst (IsServerless c db w)) in
  checkedForServerless c1 = true /\
  forall (dbs : list DBConnection) (w' : World),
    IsServerless_each dbs c1 w' =
    ((c1, map (fun _ => (isServerless c1, None)) dbs), w').
Proof.
  intros _ c1.
  assert (checkedForServerless c1 = true) as Hc1 by apply IsServerless_sets_checked.
  split; [exact Hc1|].
  intros dbs w'. induction dbs as [|db' dbs IH]; simpl; [reflexivity|].
  unfold bind. rewrite (IsServerless_checked c1 db' w' Hc1).
  unfold bind in IH. rewrite IH. reflexivity.
Qed.

End IsServerless_facts.

Lemma IsServerless_first_call_witness :
  snd (fst (@IsServerless (scripted provisioned) devConfig conn0 emptyWorld)) =
  (false, None).
Proof.
  destruct (@IsServerless_first_call (scripted provisioned) devConfig conn0 emptyWorld
              eq_refl) as (_ & Hsecond & _).
  destruct (Hsecond insufficientPrivileges eq_refl eq_refl) as (_ & _ & Hfalse).
  apply Hfalse. reflexivity.
Defined.

Lemma IsServerless_computed_once_witness :
  @IsServerless_each (scripted unreachable) [conn0; conn0]
    (fst (fst (@IsServerless (scripted unreachable) devConfig conn0 emptyWorld)))
    emptyWorld =
  ((fst (fst (@IsServerless (scripted unreachable) devConfig conn0 emptyWorld)),
    [(false, None); (false, None)]), emptyWorld).
Proof.
  apply (@IsServerless_computed_once (scripted unreachable) devConfig conn0 emptyWorld
           eq_refl).
Defined.

Example IsServerless_unreachable :
  snd (fst (@IsServerless (scripted unreachable) devConfig conn0 emptyWorld)) =
  (false, Some (ErrorString "driver: bad connection")).
Proof. reflexivity. Qed.

(** ** The connection registry *)

Section Connect_facts.
Context `{Driver}.

(** [GetUsername] asks the database only when no name is cached. *)
Lemma GetUsername_calls (c : Config) (db : DBConnection) (w : World) :
  issued w (snd (GetUsername c db w)) =
  if String.eqb (retrievedUsername c) "" then [QueryRow (conn_DB db) currentUserQuery []]
  else [].
Proof.
  unfold GetUsername, issued.
  destruct (String.eqb (retrievedUsername c) ""); simpl.
  - unfold bind, db_QueryRowString, perform, ret; simpl.
    destruct (sql_QueryRowString _ _ _ _); simpl; now rewrite drop_app_length.
  - unfold ret; simpl. now rewrite drop_all.
Qed.

Lemma GetUsername_history (c : Config) (db : DBConnection) (w : World) :
  history (snd (GetUsername c db w)) = history w ++ issued w (snd (GetUsername c db w)).
Proof.
  unfold GetUsername, issued.
  destruct (String.eqb (retrievedUsername c) ""); simpl.
  - unfold bind, db_QueryRowString, perform, ret; simpl.
    destruct (sql_QueryRowString _ _ _ _); simpl; now rewrite drop_app_length.
  - unfold ret; simpl. now rewrite drop_all, app_nil_r.
Qed.

Lemma Connect_creates (c : Client) (w : World) (probe : list call) (db : sqlDB) :
  (let* found := registry_lookup (ConnStr (config c)) in mustCreate found) w =
    (true, {| history := history w ++ probe; dbRegistry := dbRegistry w |}) ->
  sql_Open (history w ++ probe) (DriverName (config c)) (ConnStr (config c)) = inr db ->
  issued w (snd (Connect c w)) = creationCalls c probe db.
Proof.
  intros Hprobe Hopen. unfold Connect, issued, creationCalls.
  unfold bind in *.
  destruct (registry_lookup (ConnStr (config c)) w) as [found w0] eqn:Hfound.
  rewrite Hprobe.
  unfold sql_open, db_SetMaxIdleConns, db_SetMaxOpenConns, perform, record; simpl.
  rewrite Hopen; simpl.
  match goal with
  | |- context [GetUsername ?cfg ?conn ?w1] =>
      pose proof (GetUsername_calls cfg conn w1) as Hcalls;
      pose proof (GetUsername_history cfg conn w1) as Hhist;
      destruct (GetUsername cfg conn w1) as [[cfg' [name err]] w2]
  end.
  simpl in Hcalls, Hhist. rewrite Hcalls in Hhist.
  assert (history w2 = history w ++ creationCalls c probe db) as Hw2.
  { rewrite Hhist. unfold creationCalls. now rewrite <- !app_assoc. }
  unfold creationCalls in Hw2.
  destruct err as [err|]; unfold ret, registry_store; simpl;
    now rewrite Hw2, drop_app_length.
Qed.

(** C6, as amended.  A [Connect] that finds a live handle pings it and asks
    nothing else.  A [Connect] that opens a handle, because none is
    registered or because the registered one fails its ping, issues the
    identity query once, on the new handle, when the client holds no user
    name, and not at all when a name is already cached in its [Config]. *)
Theorem Connect_identity_lookups (c : Client) (w : World) :
  let dsn := ConnStr (config c) in
  let driverName := DriverName (config c) in
  let out := Connect c w in
  let lookups (db : sqlDB) :=
    if String.eqb (retrievedUsername (config c)) "" then [db] else [] in
  (forall conn,
     dbRegistry w !! dsn = Some conn ->
     sql_Ping (history w) (conn_DB conn) = None ->
     snd (fst out) = inr conn /\
     issued w (snd out) = [Ping (conn_DB conn)] /\
     identityLookups (issued w (snd out)) = []) /\
  (forall db,
     dbRegistry w !! dsn = None ->
     sql_Open (history w) driverName dsn = inr db ->
     issued w (snd out) = creationCalls c [] db /\
     identityLookups (issued w (snd out)) = lookups db) /\
  (forall conn err db,
     dbRegistry w !! dsn = Some conn ->
     sql_Ping (history w) (conn_DB conn) = Some err ->
     sql_Open (history w ++ [Ping (conn_DB conn)]) driverName dsn = inr db ->
     issued w (snd out) = creationCalls c [Ping (conn_DB conn)] db /\
     identityLookups (issued w (snd out)) = lookups db).
Proof.
  intros dsn driverName out lookups. subst dsn driverName out lookups.
  split; [|split].
  - intros conn Hfound Hping.
    unfold Connect, issued, bind, registry_lookup, mustCreate; simpl.
    rewrite Hfound. unfold bind, db_Ping, perform, ret; simpl. rewrite Hping; simpl.
    rewrite drop_app_length. auto.
  - intros db Hfound Hopen.
    assert (issued w (snd (Connect c w)) = creationCalls c [] db) as Hcalls.
    { apply Connect_creates.
      - unfold bind, registry_lookup, mustCreate. rewrite Hfound.
        unfold ret. rewrite app_nil_r. now destruct w.
      - now rewrite app_nil_r. }
    rewrite Hcalls. split; [reflexivity|].
    unfold creationCalls. now destruct (String.eqb _ _).
  - intros conn err db Hfound Hping Hopen.
    assert (issued w (snd (Connect c w)) = creationCalls c [Ping (conn_DB conn)] db)
      as Hcalls.
    { apply Connect_creates; [|exact Hopen].
      unfold bind, registry_lookup, mustCreate. rewrite Hfound.
      unfold bind, db_Ping, perform, ret. now rewrite Hping. }
    rewrite Hcalls. split; [reflexivity|].
    unfold creationCalls. now destruct (String.eqb _ _).
Qed.

End Connect_facts.

Example Connect_first_creation :
  let first := @Connect (scripted stale) (NewClient devConfig) emptyWorld in
  snd (fst first) = inr {| conn_DB := 0 |} /\
  retrievedUsername (config (fst (fst first))) = "admin" /\
  issued emptyWorld (snd first) =
    [Open "postgres" "host=example dbname=dev"; SetMaxIdleConns 0 0;
     SetMaxOpenConns 0 20; QueryRow 0 currentUserQuery []].
Proof. vm_compute. auto. Qed.

(** C6, as stated, fails on the second handle a client opens: the user name
    cached by the first [Connect] answers [GetUsername], and no identity
    query reaches the new handle. *)
Lemma Connect_second_creation_no_lookup :
  let first := @Connect (scripted stale) (NewClient devConfig) emptyWorld in
  let second := @Connect (scripted stale) (fst (fst first)) (snd first) in
  snd (fst first) = inr {| conn_DB := 0 |} /\
  snd (fst second) = inr {| conn_DB := 5 |} /\
  issued (snd first) (snd second) =
    [Ping 0; Open "postgres" "host=example dbname=dev"; SetMaxIdleConns 5 0;
     SetMaxOpenConns 5 20] /\
  List.length (identityLookups (issued (snd first) (snd second))) <> 1.
Proof. vm_compute. repeat split; discriminate. Qed.

Lemma Connect_identity_lookups_witness :
  let first := @Connect (scripted stale) (NewClient devConfig) emptyWorld in
  let second := @Connect (scripted stale) (fst (fst first)) (snd first) in
  identityLookups (issued emptyWorld (snd first)) = [0] /\
  identityLookups (issued (snd first) (snd second)) = [].
Proof.
  split.
  - apply (@Connect_identity_lookups (scripted stale) (NewClient devConfig) emptyWorld);
      reflexivity.
  - apply (proj2 (proj2 (@Connect_identity_lookups (scripted stale)
             (fst (fst (@Connect (scripted stale) (NewClient devConfig) emptyWorld)))
             (snd (@Connect (scripted stale) (NewClient devConfig) emptyWorld))))
             {| conn_DB := 0 |} (ErrorString "driver: bad connection") 5);
      reflexivity.
Defined.

(** ** Reading a role grant and a role *)

Lemma lowerByte_upperByte (c : ascii) :
  strings.lowerByte (strings.upperByte c) = strings.lowerByte c.
Proof. destruct c as [[] [] [] [] [] [] [] []]; reflexivity. Qed.

Lemma ToLower_ToUpper (s : string) :
  strings.ToLower (strings.ToUpper s) = strings.ToLower s.
Proof.
  unfold strings.ToUpper, strings.ToLower.
  induction s as [|c s IH]; simpl; [reflexivity|].
  now rewrite lowerByte_upperByte, IH.
Qed.

(** The dispatch of [resourceRedshiftRoleGrantRead], by the kind in lower
    case. *)
Lemma grantReadPlan_user (k : string) :
  strings.ToLower k = "user" -> grantReadPlan k = ReadQuery userGrantsQuery.
Proof.
  intros E. unfold grantReadPlan. cbv zeta.
  rewrite <- strings_facts.ToUpper_ToLower, E. reflexivity.
Qed.

Lemma grantReadPlan_role (k : string) :
  strings.ToLower k = "role" -> grantReadPlan k = ReadQuery roleGrantsQuery.
Proof.
  intros E. unfold grantReadPlan. cbv zeta.
  rewrite <- strings_facts.ToUpper_ToLower, E. reflexivity.
Qed.

Lemma grantReadPlan_group (k : string) :
  strings.ToLower k = "group" -> grantReadPlan k = ReadTrustState.
Proof.
  intros E. unfold grantReadPlan. cbv zeta.
  rewrite <- strings_facts.ToUpper_ToLower, E. reflexivity.
Qed.

Lemma grantReadPlan_invalid (k : string) :
  validGrantToType k = false -> grantReadPlan k = ReadUnsupported.
Proof.
  unfold validGrantToType, grantReadPlan. cbv zeta. intros Hv.
  destruct (String.eqb_spec (strings.ToLower k) "user") as [E|Nu]; [discriminate|].
  destruct (String.eqb_spec (strings.ToLower k) "group") as [E|Ng]; [discriminate|].
  destruct (String.eqb_spec (strings.ToLower k) "role") as [E|Nr]; [discriminate|].
  clear Hv.
  destruct (String.eqb_spec (strings.ToUpper k) "USER") as [E|_].
  { apply (f_equal strings.ToLower) in E. rewrite ToLower_ToUpper in E. contradiction. }
  destruct (String.eqb_spec (strings.ToUpper k) "ROLE") as [E|_].
  { apply (f_equal strings.ToLower) in E. rewrite ToLower_ToUpper in E. contradiction. }
  destruct (String.eqb_spec (strings.ToUpper k) "GROUP") as [E|_].
  { apply (f_equal strings.ToLower) in E. rewrite ToLower_ToUpper in E. contradiction. }
  reflexivity.
Qed.

Section Read_facts.
Context `{Driver}.

(** C9.  Reading a grant whose kind is [group] succeeds, calls nothing and
    returns the resource data as it was given. *)
Theorem resourceRedshiftRoleGrantRead_group
  (db : DBConnection) (d : ResourceData) (w : World) :
  strings.ToLower (rd_Get d roleGrantGrantToTypeAttr) = "group" ->
  resourceRedshiftRoleGrantRead db d w = ((d, None), w).
Proof.
  intros Hk. unfold resourceRedshiftRoleGrantRead.
  now rewrite (grantReadPlan_group _ Hk).
Qed.

(** A kind the schema refuses is refused by read as well, before any
    query. *)
Lemma resourceRedshiftRoleGrantRead_invalid
  (db : DBConnection) (d : ResourceData) (w : World) :
  validGrantToType (rd_Get d roleGrantGrantToTypeAttr) = false ->
  resourceRedshiftRoleGrantRead db d w =
  ((d, Some (ErrorString ("unsupported grant_to_type: " +:+
                          rd_Get d roleGrantGrantToTypeAttr))), w).
Proof.
  intros Hk. unfold resourceRedshiftRoleGrantRead.
  now rewrite (grantReadPlan_invalid _ Hk).
Qed.


End Read_facts.

Lemma resourceRedshiftRoleGrantRead_group_witness :
  @resourceRedshiftRoleGrantRead (scripted dropped) conn0 groupGrant emptyWorld =
  ((groupGrant, None), emptyWorld).
Proof.
  apply (@resourceRedshiftRoleGrantRead_group (scripted dropped) conn0 groupGrant emptyWorld).
  reflexivity.
Defined.


(** ** Creating and deleting *)

Ltac run :=
  unfold deferring, deferredRollback, startTransaction, bind, ret,
    db_Begin, tx_Exec, tx_QueryRowString, tx_QueryRowBool, tx_Commit, tx_Rollback,
    perform, record, issued; simpl.

Ltac flatten_history := repeat (rewrite <- app_assoc; simpl).

Section Write_facts.
Context `{Driver}.


(** An absent role: [resourceRedshiftRoleDelete] returns from the existence
    check, and the transaction it began is left to the deferred rollback. *)
Lemma resourceRedshiftRoleDelete_absent
  (db : DBConnection) (d : ResourceData) (w : World) (tx : sqlTx) :
  sql_Begin (history w) (conn_DB db) = inr tx ->
  row_Scan (sql_TxQueryRowBool (history w ++ [Begin (conn_DB db)]) tx roleExistsQuery
              [rd_Id d]) = inr false ->
  fst (resourceRedshiftRoleDelete db d w) = (d, None) /\
  issued w (snd (resourceRedshiftRoleDelete db d w)) =
    [Begin (conn_DB db); TxQueryRow tx roleExistsQuery [rd_Id d]; Rollback tx].
Proof.
  intros Hbegin Hexists. unfold resourceRedshiftRoleDelete. run.
  rewrite Hbegin. simpl. rewrite Hexists. simpl. flatten_history.
  now rewrite drop_app_length.
Qed.

(** An absent grant: when REVOKE fails because the role or the grantee does
    not exist, [resourceRedshiftRoleGrantDelete] commits before it
    returns. *)
Lemma resourceRedshiftRoleGrantDelete_absent
  (db : DBConnection) (d : ResourceData) (w : World) (tx : sqlTx)
  (roleName kind grantToName : string) (err : error) :
  let begin := Begin (conn_DB db) in
  let revoke := Exec tx (revokeRoleQuery roleName (strings.ToUpper kind) grantToName) in
  splitRoleGrantID (rd_Id d) = Some (roleName, kind, grantToName) ->
  sql_Begin (history w) (conn_DB db) = inr tx ->
  sql_Exec (history w ++ [begin]) tx
    (revokeRoleQuery roleName (strings.ToUpper kind) grantToName) = Some err ->
  strings.Contains (error_Error err) "does not exist" = true ->
  sql_Commit (history w ++ [begin; revoke]) tx = None ->
  fst (resourceRedshiftRoleGrantDelete db d w) = (d, None) /\
  issued w (snd (resourceRedshiftRoleGrantDelete db d w)) =
    [begin; revoke; Commit tx; Rollback tx].
Proof.
  intros begin revoke Hid Hbegin Hexec Hgone Hcommit.
  unfold resourceRedshiftRoleGrantDelete. rewrite Hid. run.
  rewrite Hbegin. simpl. fold begin. rewrite Hexec. simpl. rewrite Hgone. simpl.
  fold revoke. flatten_history. rewrite Hcommit. simpl. flatten_history.
  now rewrite drop_app_length.
Qed.

(** Whatever the third field of a four-field identifier holds,
    [resourceRedshiftRoleGrantDelete] sends it, in upper case, inside the
    REVOKE statement. *)
Lemma resourceRedshiftRoleGrantDelete_executes
  (db : DBConnection) (d : ResourceData) (w : World) (tx : sqlTx)
  (roleName kind grantToName : string) :
  splitRoleGrantID (rd_Id d) = Some (roleName, kind, grantToName) ->
  sql_Begin (history w) (conn_DB db) = inr tx ->
  executed (issued w (snd (resourceRedshiftRoleGrantDelete db d w))) =
    [revokeRoleQuery roleName (strings.ToUpper kind) grantToName].
Proof.
  intros Hid Hbegin.
  unfold resourceRedshiftRoleGrantDelete. rewrite Hid. run.
  rewrite Hbegin. simpl.
  destruct (sql_Exec _ tx _) as [err|]; simpl.
  - destruct (strings.Contains (error_Error err) "does not exist"); simpl.
    + destruct (sql_Commit _ tx) as [err'|]; simpl; flatten_history;
        now rewrite drop_app_length.
    + flatten_history. now rewrite drop_app_length.
  - destruct (sql_Commit _ tx) as [err'|]; simpl; flatten_history;
      now rewrite drop_app_length.
Qed.

(** [resourceRedshiftRoleGrantCreate] sends the GRANT statement built from
    the three attributes, and no other statement. *)
Lemma resourceRedshiftRoleGrantCreate_executes
  (db : DBConnection) (d : ResourceData) (w : World) (tx : sqlTx) :
  sql_Begin (history w) (conn_DB db) = inr tx ->
  executed (issued w (snd (resourceRedshiftRoleGrantCreate db d w))) =
    [grantRoleQuery (rd_Get d roleGrantRoleNameAttr)
       (strings.ToUpper (rd_Get d roleGrantGrantToTypeAttr))
       (rd_Get d roleGrantGrantToNameAttr)].
Proof.
  intros Hbegin.
  unfold resourceRedshiftRoleGrantCreate. run.
  rewrite Hbegin. simpl.
  destruct (sql_Exec _ tx _) as [err|]; simpl.
  { flatten_history. now rewrite drop_app_length. }
  destruct (sql_Commit _ tx) as [err'|]; simpl.
  { flatten_history. now rewrite drop_app_length. }
  unfold resourceRedshiftRoleGrantRead.
  destruct (grantReadPlan _); unfold bind, db_QueryRowInt, perform, ret; simpl.
  - destruct (row_Scan _) as [err|v]; [destruct (errors_Is_ErrNoRows err)|];
      simpl; flatten_history; now rewrite drop_app_length.
  - flatten_history. now rewrite drop_app_length.
  - flatten_history. now rewrite drop_app_length.
Qed.

End Write_facts.


(** Deleting a grant whose role was dropped behind the provider's back
    succeeds. *)
Example resourceRedshiftRoleGrantDelete_dropped :
  fst (@resourceRedshiftRoleGrantDelete (scripted dropped) conn0 roleGrant emptyWorld) =
  (roleGrant, None).
Proof. reflexivity. Qed.

(** C3, on the code.  With the role gone, the grant delete commits its
    transaction before returning, and the role delete returns with no
    commit: its transaction only meets the deferred rollback. *)
Theorem delete_absent_commit :
  let grant := @resourceRedshiftRoleGrantDelete (scripted dropped) conn0 roleGrant emptyWorld in
  let role := @resourceRedshiftRoleDelete (scripted dropped) conn0 analystRole emptyWorld in
  (fst grant = (roleGrant, None) /\
   issued emptyWorld (snd grant) =
     [Begin 0; Exec 0 (revokeRoleQuery "analyst" "ROLE" "manager"); Commit 0; Rollback 0] /\
   committed (issued emptyWorld (snd grant)) = [0]) /\
  (fst role = (analystRole, None) /\
   issued emptyWorld (snd role) =
     [Begin 0; TxQueryRow 0 roleExistsQuery ["analyst"]; Rollback 0] /\
   committed (issued emptyWorld (snd role)) = []).
Proof. vm_compute. repeat split. Qed.


(** The same kind is refused by the schema and by read. *)
Example resourceRedshiftRoleGrantRead_bogus :
  @resourceRedshiftRoleGrantRead (scripted healthy) conn0
    (resource "role:analyst:bogus:x"
       [("role_name", "analyst"); ("grant_to_type", "bogus"); ("grant_to_name", "x")])
    emptyWorld =
  ((resource "role:analyst:bogus:x"
      [("role_name", "analyst"); ("grant_to_type", "bogus"); ("grant_to_name", "x")],
    Some (ErrorString "unsupported grant_to_type: bogus")), emptyWorld).
Proof. reflexivity. Qed.

(** C7.  For a kind the schema accepts, create executes one statement, the
    GRANT ROLE statement, and delete one, the REVOKE ROLE statement; the
    statement has no kind keyword exactly when the kind is [user], and has
    [ROLE] (resp. [GROUP]) between [TO]/[FROM] and the quoted grantee
    exactly when the kind is [role] (resp. [group]). *)
Theorem role_grant_statement_kind_keyword (r k n : string) :
  validGrantToType k = true ->
  let K := strings.ToUpper k in
  let Qr := pq.QuoteIdentifier r in
  let Qn := pq.QuoteIdentifier n in
  (forall (drv : Driver) (db : DBConnection) (d : ResourceData) (w : World) (tx : sqlTx),
     rd_Get d roleGrantRoleNameAttr = r ->
     rd_Get d roleGrantGrantToTypeAttr = k ->
     rd_Get d roleGrantGrantToNameAttr = n ->
     sql_Begin (history w) (conn_DB db) = inr tx ->
     executed (issued w (snd (resourceRedshiftRoleGrantCreate db d w))) =
       [grantRoleQuery r K n]) /\
  (forall (drv : Driver) (db : DBConnection) (d : ResourceData) (w : World) (tx : sqlTx),
     splitRoleGrantID (rd_Id d) = Some (r, k, n) ->
     sql_Begin (history w) (conn_DB db) = inr tx ->
     executed (issued w (snd (resourceRedshiftRoleGrantDelete db d w))) =
       [revokeRoleQuery r K n]) /\
  (strings.ToLower k = "user" <->
     grantRoleQuery r K n = "GRANT ROLE " +:+ Qr +:+ " TO " +:+ Qn) /\
  (strings.ToLower k = "role" <->
     grantRoleQuery r K n = "GRANT ROLE " +:+ Qr +:+ " TO " +:+ "ROLE " +:+ Qn) /\
  (strings.ToLower k = "group" <->
     grantRoleQuery r K n = "GRANT ROLE " +:+ Qr +:+ " TO " +:+ "GROUP " +:+ Qn) /\
  (strings.ToLower k = "user" <->
     revokeRoleQuery r K n = "REVOKE ROLE " +:+ Qr +:+ " FROM " +:+ Qn) /\
  (strings.ToLower k = "role" <->
     revokeRoleQuery r K n = "REVOKE ROLE " +:+ Qr +:+ " FROM " +:+ "ROLE " +:+ Qn) /\
  (strings.ToLower k = "group" <->
     revokeRoleQuery r K n = "REVOKE ROLE " +:+ Qr +:+ " FROM " +:+ "GROUP " +:+ Qn).
Proof.
  intros Hv K Qr Qn. split; [|split].
  - intros drv db d w tx Hr Hk Hn Hbegin. subst r k n K.
    now apply resourceRedshiftRoleGrantCreate_executes with (tx := tx).
  - intros drv db d w tx Hid Hbegin. subst K.
    now apply resourceRedshiftRoleGrantDelete_executes with (tx := tx).
  - exact (statement_kind_keyword r k n Hv).
Qed.

Lemma role_grant_statement_kind_keyword_witness :
  grantRoleQuery "analyst" (strings.ToUpper "Role") "manager" =
  "GRANT ROLE " +:+ quoted "analyst" +:+ " TO ROLE " +:+ quoted "manager".
Proof.
  destruct (role_grant_statement_kind_keyword "analyst" "Role" "manager" eq_refl)
    as (_ & _ & _ & Hrole & _).
  now apply Hrole.
Defined.

(** * Further properties of the resources *)

(** ** The role-grant resource *)

Lemma splitRoleGrantID_malformed (id : string) :
  List.length (strings.Split id ":") <> 4 -> splitRoleGrantID id = None.
Proof.
  unfold splitRoleGrantID.
  destruct (strings.Split id ":") as [|a [|b [|c [|e [|f l]]]]]; simpl;
    intros Hlen; try reflexivity; contradiction.
Qed.



Section RoleGrant_facts.
Context `{Driver}.

(** An identifier that does not split into four fields is refused by
    delete before anything reaches the database, and the resource data is
    as it was given. *)
Theorem resourceRedshiftRoleGrantDelete_malformed
  (db : DBConnection) (d : ResourceData) (w : World) :
  List.length (strings.Split (rd_Id d) ":") <> 4 ->
  resourceRedshiftRoleGrantDelete db d w =
  ((d, Some (ErrorString ("invalid role grant ID format: " +:+ rd_Id d))), w).
Proof.
  intros Hlen. unfold resourceRedshiftRoleGrantDelete.
  now rewrite (splitRoleGrantID_malformed _ Hlen).
Qed.

(** A REVOKE that fails for another reason than a missing role or grantee
    is returned wrapped and nothing is committed; a commit that fails after
    a REVOKE that went through is returned wrapped as well. *)
Theorem resourceRedshiftRoleGrantDelete_failure
  (db : DBConnection) (d : ResourceData) (w : World) (tx : sqlTx)
  (roleName kind grantToName : string) :
  let begin := Begin (conn_DB db) in
  let statement := revokeRoleQuery roleName (strings.ToUpper kind) grantToName in
  let out := resourceRedshiftRoleGrantDelete db d w in
  splitRoleGrantID (rd_Id d) = Some (roleName, kind, grantToName) ->
  sql_Begin (history w) (conn_DB db) = inr tx ->
  (forall err,
     sql_Exec (history w ++ [begin]) tx statement = Some err ->
     strings.Contains (error_Error err) "does not exist" = false ->
     fst out = (d, Some (Wrapped "could not revoke role" err)) /\
     issued w (snd out) = [begin; Exec tx statement; Rollback tx]) /\
  (forall err,
     sql_Exec (history w ++ [begin]) tx statement = None ->
     sql_Commit (history w ++ [begin; Exec tx statement]) tx = Some err ->
     fst out = (d, Some (Wrapped "could not commit transaction" err)) /\
     issued w (snd out) = [begin; Exec tx statement; Commit tx; Rollback tx]).
Proof.
  intros begin statement out Hid Hbegin. subst out.
  unfold resourceRedshiftRoleGrantDelete. rewrite Hid. run.
  rewrite Hbegin. simpl. fold begin statement.
  split.
  - intros err Hexec Hother. rewrite Hexec. simpl. rewrite Hother. simpl.
    flatten_history. now rewrite drop_app_length.
  - intros err Hexec Hcommit. rewrite Hexec. simpl. flatten_history.
    rewrite Hcommit. simpl. flatten_history. now rewrite drop_app_length.
Qed.


(** Grant create sets the identifier only after the commit: when GRANT or
    the commit fails, the failure is returned wrapped and the resource data
    is as it was given. *)
Theorem resourceRedshiftRoleGrantCreate_failure
  (db : DBConnection) (d : ResourceData) (w : World) (tx : sqlTx) :
  let begin := Begin (conn_DB db) in
  let statement :=
    grantRoleQuery (rd_Get d roleGrantRoleNameAttr)
      (strings.ToUpper (rd_Get d roleGrantGrantToTypeAttr))
      (rd_Get d roleGrantGrantToNameAttr) in
  let out := resourceRedshiftRoleGrantCreate db d w in
  sql_Begin (history w) (conn_DB db) = inr tx ->
  (forall err,
     sql_Exec (history w ++ [begin]) tx statement = Some err ->
     fst out = (d, Some (Wrapped "could not grant role" err)) /\
     issued w (snd out) = [begin; Exec tx statement; Rollback tx]) /\
  (forall err,
     sql_Exec (history w ++ [begin]) tx statement = None ->
     sql_Commit (history w ++ [begin; Exec tx statement]) tx = Some err ->
     fst out = (d, Some (Wrapped "could not commit transaction" err)) /\
     issued w (snd out) = [begin; Exec tx statement; Commit tx; Rollback tx]).
Proof.
  intros begin statement out Hbegin. subst out.
  unfold resourceRedshiftRoleGrantCreate. run.
  rewrite Hbegin. simpl. fold begin statement.
  split.
  - intros err Hexec. rewrite Hexec. simpl.
    flatten_history. now rewrite drop_app_length.
  - intros err Hexec Hcommit. rewrite Hexec. simpl. flatten_history.
    rewrite Hcommit. simpl. flatten_history. now rewrite drop_app_length.
Qed.



End RoleGrant_facts.

(** ** The role resource *)

Section Role_facts.
Context `{Driver}.

(** A role that is found: read records the name the database returned
    under [name], keeps the identifier and every other attribute, and
    returns no error. *)
Theorem resourceRedshiftRoleRead_found
  (db : DBConnection) (d : ResourceData) (w : World) (v : string) :
  let d' := fst (fst (resourceRedshiftRoleRead db d w)) in
  row_Scan (sql_QueryRowString (history w) (conn_DB db) selectRoleQuery [rd_Id d]) = inr v ->
  snd (fst (resourceRedshiftRoleRead db d w)) = None /\
  rd_Id d' = rd_Id d /\
  rd_Get d' roleNameAttr = v /\
  forall key, key <> roleNameAttr -> rd_Get d' key = rd_Get d key.
Proof.
  intros d' Hrow. subst d'. unfold resourceRedshiftRoleRead.
  unfold bind, db_QueryRowString, perform, ret. simpl. rewrite Hrow. simpl.
  repeat split.
  - unfold rd_Get, rd_Set. simpl. now rewrite lookup_insert_eq.
  - intros key Hkey. unfold rd_Get, rd_Set. simpl.
    now rewrite lookup_insert_ne by congruence.
Qed.


(** Role update with the name unchanged begins no transaction and sends
    no statement: it is the read, one query by the identifier. *)
Theorem resourceRedshiftRoleUpdate_unchanged
  (db : DBConnection) (d : ResourceData) (w : World) :
  rd_HasChange d roleNameAttr = false ->
  issued w (snd (resourceRedshiftRoleUpdate db d w)) =
    [QueryRow (conn_DB db) selectRoleQuery [rd_Id d]] /\
  fst (resourceRedshiftRoleUpdate db d w) = fst (resourceRedshiftRoleRead db d w).
Proof.
  intros Hsame. unfold resourceRedshiftRoleUpdate. rewrite Hsame.
  split; [|reflexivity].
  unfold resourceRedshiftRoleRead, bind, db_QueryRowString, perform, record, ret, issued. simpl.
  destruct (row_Scan _) as [err|v]; [destruct (errors_Is_ErrNoRows err)|];
    simpl; now rewrite drop_app_length.
Qed.


(** Role delete past the existence check.  A failure of the check is
    returned as it is and nothing is dropped; for a role that exists, DROP
    ROLE of the quoted identifier is sent and committed, and a failure of
    the statement or of the commit is returned wrapped. *)
Theorem resourceRedshiftRoleDelete_present
  (db : DBConnection) (d : ResourceData) (w : World) (tx : sqlTx) :
  let begin := Begin (conn_DB db) in
  let probe := TxQueryRow tx roleExistsQuery [rd_Id d] in
  let statement := "DROP ROLE " +:+ pq.QuoteIdentifier (rd_Id d) in
  let present :=
    row_Scan (sql_TxQueryRowBool (history w ++ [begin]) tx roleExistsQuery [rd_Id d]) in
  let out := resourceRedshiftRoleDelete db d w in
  sql_Begin (history w) (conn_DB db) = inr tx ->
  (forall err,
     present = inl err ->
     fst out = (d, Some err) /\ issued w (snd out) = [begin; probe; Rollback tx]) /\
  (present = inr true ->
   (forall err,
      sql_Exec (history w ++ [begin; probe]) tx statement = Some err ->
      fst out = (d, Some (Wrapped "error dropping role" err)) /\
      issued w (snd out) = [begin; probe; Exec tx statement; Rollback tx]) /\
   (sql_Exec (history w ++ [begin; probe]) tx statement = None ->
    (forall err,
       sql_Commit (history w ++ [begin; probe; Exec tx statement]) tx = Some err ->
       fst out = (d, Some (Wrapped "could not commit transaction" err)) /\
       issued w (snd out) = [begin; probe; Exec tx statement; Commit tx; Rollback tx]) /\
    (sql_Commit (history w ++ [begin; probe; Exec tx statement]) tx = None ->
     fst out = (d, None) /\
     issued w (snd out) = [begin; probe; Exec tx statement; Commit tx; Rollback tx]))).
Proof.
  intros begin probe statement present out Hbegin. subst out present.
  unfold resourceRedshiftRoleDelete. run.
  rewrite Hbegin. simpl. fold begin probe statement.
  split.
  - intros err Hprobe. rewrite Hprobe. simpl. flatten_history.
    now rewrite drop_app_length.
  - intros Hprobe. rewrite Hprobe. simpl. flatten_history.
    split.
    + intros err Hexec. rewrite Hexec. simpl. flatten_history.
      now rewrite drop_app_length.
    + intros Hexec. rewrite Hexec. simpl. flatten_history.
      split.
      * intros err Hcommit. rewrite Hcommit. simpl. flatten_history.
        now rewrite drop_app_length.
      * intros Hcommit. rewrite Hcommit. simpl. flatten_history.
        now rewrite drop_app_length.
Qed.

End Role_facts.

(** ** Transactions and observations *)

Section Transaction_facts.
Context `{Driver}.

(** When the transaction cannot begin, each of the five writing operations
    returns that error as it is, leaves the resource data as it was given
    and makes no other call. *)
Theorem startTransaction_failure
  (db : DBConnection) (d : ResourceData) (w : World) (err : error) :
  sql_Begin (history w) (conn_DB db) = inl err ->
  let refused := ((d, Some err), record (Begin (conn_DB db)) w) in
  resourceRedshiftRoleGrantCreate db d w = refused /\
  (splitRoleGrantID (rd_Id d) <> None ->
   resourceRedshiftRoleGrantDelete db d w = refused) /\
  resourceRedshiftRoleCreate db d w = refused /\
  (rd_HasChange d roleNameAttr = true ->
   resourceRedshiftRoleUpdate db d w = refused) /\
  resourceRedshiftRoleDelete db d w = refused.
Proof.
  intros Hbegin refused. subst refused. repeat split.
  - unfold resourceRedshiftRoleGrantCreate. run. now rewrite Hbegin.
  - intros Hid. unfold resourceRedshiftRoleGrantDelete.
    destruct (splitRoleGrantID (rd_Id d)) as [[[r k] n]|]; [|contradiction].
    run. now rewrite Hbegin.
  - unfold resourceRedshiftRoleCreate. run. now rewrite Hbegin.
  - intros Hchange. unfold resourceRedshiftRoleUpdate. rewrite Hchange.
    destruct (rd_GetChange d roleNameAttr). run. now rewrite Hbegin.
  - unfold resourceRedshiftRoleDelete. run. now rewrite Hbegin.
Qed.

Ltac close_path :=
  simpl; flatten_history; rewrite drop_app_length; split; [reflexivity|auto].

(** Every writing operation that began a transaction ends with the
    rollback attempt on it, on every path, and commits at most once. *)
Theorem deferredRollback_always
  (db : DBConnection) (d : ResourceData) (w : World) (tx : sqlTx) :
  sql_Begin (history w) (conn_DB db) = inr tx ->
  closes tx (issued w (snd (resourceRedshiftRoleGrantCreate db d w))) /\
  (splitRoleGrantID (rd_Id d) <> None ->
   closes tx (issued w (snd (resourceRedshiftRoleGrantDelete db d w)))) /\
  closes tx (issued w (snd (resourceRedshiftRoleCreate db d w))) /\
  (rd_HasChange d roleNameAttr = true ->
   closes tx (issued w (snd (resourceRedshiftRoleUpdate db d w)))) /\
  closes tx (issued w (snd (resourceRedshiftRoleDelete db d w))).
Proof.
  intros Hbegin. unfold closes. split; [|split; [|split; [|split]]].
  - unfold resourceRedshiftRoleGrantCreate. run. rewrite Hbegin. simpl.
    destruct (sql_Exec _ tx _) as [err|]; [close_path|]. simpl.
    destruct (sql_Commit _ tx) as [err|]; [close_path|]. simpl.
    unfold resourceRedshiftRoleGrantRead.
    destruct (grantReadPlan _);
      unfold bind, db_QueryRowInt, perform, record, ret; simpl;
      [|close_path|close_path].
    destruct (row_Scan _) as [err|v]; [destruct (errors_Is_ErrNoRows err)|];
      close_path.
  - intros Hid. unfold resourceRedshiftRoleGrantDelete.
    destruct (splitRoleGrantID (rd_Id d)) as [[[r k] n]|]; [|contradiction].
    run. rewrite Hbegin. simpl.
    destruct (sql_Exec _ tx _) as [err|]; simpl.
    + destruct (strings.Contains (error_Error err) "does not exist");
        [|close_path]. simpl.
      destruct (sql_Commit _ tx) as [err'|]; close_path.
    + destruct (sql_Commit _ tx) as [err'|]; close_path.
  - unfold resourceRedshiftRoleCreate. run. rewrite Hbegin. simpl.
    destruct (sql_Exec _ tx _) as [err|]; [close_path|]. simpl.
    destruct (row_Scan (sql_TxQueryRowString _ _ _ _)) as [err|v0]; [close_path|].
    simpl.
    destruct (sql_Commit _ tx) as [err|]; [close_path|]. simpl.
    unfold resourceRedshiftRoleRead, bind, db_QueryRowString, perform, record, ret.
    simpl.
    destruct (row_Scan (sql_QueryRowString _ _ _ _)) as [err|v];
      [destruct (errors_Is_ErrNoRows err)|]; close_path.
  - intros Hchange. unfold resourceRedshiftRoleUpdate. rewrite Hchange.
    destruct (rd_GetChange d roleNameAttr) as [o n]. run. rewrite Hbegin. simpl.
    destruct (sql_Exec _ tx _) as [err|]; [close_path|]. simpl.
    destruct (sql_Commit _ tx) as [err|]; [close_path|]. simpl.
    unfold resourceRedshiftRoleRead, bind, db_QueryRowString, perform, record, ret.
    simpl.
    destruct (row_Scan (sql_QueryRowString _ _ _ _)) as [err|v];
      [destruct (errors_Is_ErrNoRows err)|]; close_path.
  - unfold resourceRedshiftRoleDelete. run. rewrite Hbegin. simpl.
    destruct (row_Scan (sql_TxQueryRowBool _ _ _ _)) as [err|[|]]; [close_path| |close_path].
    simpl.
    destruct (sql_Exec _ tx _) as [err|]; [close_path|]. simpl.
    destruct (sql_Commit _ tx) as [err|]; close_path.
Qed.

(** The two reads are observations: each makes at most one call, a query
    for one row on the connection; neither begins a transaction nor
    touches the registry; the identifier is kept or cleared, never
    changed to another one, and the grant read keeps every attribute. *)
Theorem Read_observes (db : DBConnection) (d : ResourceData) (w : World) :
  let grant := resourceRedshiftRoleGrantRead db d w in
  let role := resourceRedshiftRoleRead db d w in
  (issued w (snd grant) = [] \/
   exists query args, issued w (snd grant) = [QueryRow (conn_DB db) query args]) /\
  dbRegistry (snd grant) = dbRegistry w /\
  (rd_Id (fst (fst grant)) = rd_Id d \/ rd_Id (fst (fst grant)) = "") /\
  rd_attrs (fst (fst grant)) = rd_attrs d /\
  rd_state (fst (fst grant)) = rd_state d /\
  issued w (snd role) = [QueryRow (conn_DB db) selectRoleQuery [rd_Id d]] /\
  dbRegistry (snd role) = dbRegistry w /\
  (rd_Id (fst (fst role)) = rd_Id d \/ rd_Id (fst (fst role)) = "") /\
  rd_state (fst (fst role)) = rd_state d.
Proof.
  intros grant role. subst grant role.
  unfold resourceRedshiftRoleGrantRead, resourceRedshiftRoleRead.
  unfold bind, db_QueryRowInt, db_QueryRowString, perform, record, ret, issued. simpl.
  split; [|split; [|split; [|split; [|split]]]].
  1-5: destruct (grantReadPlan _); simpl;
    [destruct (row_Scan _) as [err|v]; [destruct (errors_Is_ErrNoRows err)|]; simpl|..];
    rewrite ?drop_app_length, ?drop_all; eauto.
  destruct (row_Scan (sql_QueryRowString _ _ _ _)) as [err|v];
    [destruct (errors_Is_ErrNoRows err)|]; simpl;
    rewrite ?drop_app_length; auto.
Qed.

(** Neither delete writes to the resource data: on every path, with or
    without an error, it is returned as it was given. *)
Theorem Delete_keeps_data (db : DBConnection) (d : ResourceData) (w : World) :
  fst (fst (resourceRedshiftRoleGrantDelete db d w)) = d /\
  fst (fst (resourceRedshiftRoleDelete db d w)) = d.
Proof.
  split.
  - unfold resourceRedshiftRoleGrantDelete.
    destruct (splitRoleGrantID (rd_Id d)) as [[[r k] n]|]; [|reflexivity].
    run. destruct (sql_Begin _ _) as [err|tx]; [reflexivity|]. simpl.
    destruct (sql_Exec _ tx _) as [err|]; simpl.
    + destruct (strings.Contains (error_Error err) "does not exist");
        [|reflexivity]. simpl.
      now destruct (sql_Commit _ tx).
    + now destruct (sql_Commit _ tx).
  - unfold resourceRedshiftRoleDelete. run.
    destruct (sql_Begin _ _) as [err|tx]; [reflexivity|]. simpl.
    destruct (row_Scan (sql_TxQueryRowBool _ _ _ _)) as [err|[|]];
      [reflexivity| |reflexivity].
    simpl. destruct (sql_Exec _ tx _) as [err|]; [reflexivity|]. simpl.
    now destruct (sql_Commit _ tx).
Qed.

End Transaction_facts.

(** ** The registry and the cached facts *)

Section Registry_facts.
Context `{Driver}.

Lemma GetUsername_registry (c : Config) (db : DBConnection) (w : World) :
  dbRegistry (snd (GetUsername c db w)) = dbRegistry w.
Proof.
  unfold GetUsername.
  destruct (String.eqb (retrievedUsername c) ""); simpl; [|reflexivity].
  unfold bind, db_QueryRowString, perform, ret; simpl.
  now destruct (sql_QueryRowString _ _ _ _).
Qed.

Lemma GetUsername_ConnStr (c : Config) (db : DBConnection) (w : World) :
  ConnStr (fst (fst (GetUsername c db w))) = ConnStr c.
Proof.
  unfold GetUsername.
  destruct (String.eqb (retrievedUsername c) ""); simpl; [|reflexivity].
  unfold bind, db_QueryRowString, perform, ret; simpl.
  now destruct (sql_QueryRowString _ _ _ _).
Qed.

(** A registered handle that answers the ping is returned as it is. *)
Lemma Connect_reuse (c : Client) (w : World) (conn : DBConnection) :
  dbRegistry w !! ConnStr (config c) = Some conn ->
  sql_Ping (history w) (conn_DB conn) = None ->
  Connect c w = ((c, inr conn), record (Ping (conn_DB conn)) w).
Proof.
  intros Hfound Hping.
  unfold Connect, bind, registry_lookup, mustCreate. rewrite Hfound.
  unfold bind, db_Ping, perform, ret. now rewrite Hping.
Qed.

Lemma Connect_registry_facts (c : Client) (w : World) :
  (forall conn, snd (fst (Connect c w)) = inr conn ->
     dbRegistry (snd (Connect c w)) !! ConnStr (config c) = Some conn) /\
  (forall err, snd (fst (Connect c w)) = inl err ->
     dbRegistry (snd (Connect c w)) = dbRegistry w) /\
  (forall dsn, dsn <> ConnStr (config c) ->
     dbRegistry (snd (Connect c w)) !! dsn = dbRegistry w !! dsn).
Proof.
  unfold Connect, bind, registry_lookup.
  destruct (mustCreate (dbRegistry w !! ConnStr (config c)) w) as [create w1] eqn:Hprobe.
  assert (dbRegistry w1 = dbRegistry w) as Hw1.
  { unfold mustCreate in Hprobe.
    destruct (dbRegistry w !! ConnStr (config c)) as [conn|].
    - unfold bind, db_Ping, perform, ret in Hprobe. now inversion Hprobe.
    - unfold ret in Hprobe. now inversion Hprobe. }
  assert (create = false ->
          exists conn, dbRegistry w !! ConnStr (config c) = Some conn) as Hfalse.
  { intros ->. unfold mustCreate in Hprobe.
    destruct (dbRegistry w !! ConnStr (config c)) as [conn|]; [eauto|].
    unfold ret in Hprobe. inversion Hprobe. }
  destruct create.
  - destruct (dbRegistry w !! ConnStr (config c));
      unfold sql_open, db_SetMaxIdleConns, db_SetMaxOpenConns, perform, record;
      simpl;
      (destruct (sql_Open _ _ _) as [err|db]; simpl;
       [ unfold ret; simpl; rewrite Hw1; repeat split; intros; congruence | ]);
      match goal with
      | |- context [GetUsername ?cfg ?conn ?w2] =>
          pose proof (GetUsername_registry cfg conn w2) as Hreg;
          destruct (GetUsername cfg conn w2) as [[cfg' [name err]] w3]
      end;
      simpl in Hreg; rewrite Hw1 in Hreg;
      (destruct err as [err|]; unfold bind, ret, registry_store; simpl; rewrite Hreg;
       [ repeat split; intros; congruence | ]);
      (split; [|split];
       [ intros conn' [= <-]; apply lookup_insert_eq
       | intros err [=]
       | intros dsn Hdsn; now rewrite lookup_insert_ne by congruence ]).
  - destruct (Hfalse eq_refl) as [conn Hfound]. rewrite Hfound.
    unfold ret. simpl. rewrite Hw1.
    split; [|split].
    + now intros conn' [= <-].
    + intros err [=].
    + reflexivity.
Qed.

(** The registry after [Connect]: a connection that is returned is the one
    registered under the client's connection string; a failed [Connect]
    leaves the registry as it was; the entries of other connection strings
    are never touched. *)
Theorem Connect_registry (c : Client) (w : World) :
  let out := Connect c w in
  (forall conn, snd (fst out) = inr conn ->
     dbRegistry (snd out) !! ConnStr (config c) = Some conn) /\
  (forall err, snd (fst out) = inl err -> dbRegistry (snd out) = dbRegistry w) /\
  (forall dsn, dsn <> ConnStr (config c) ->
     dbRegistry (snd out) !! dsn = dbRegistry w !! dsn).
Proof. exact (Connect_registry_facts c w). Qed.

(** A connection obtained once is shared: as long as it answers the ping,
    a later [Connect], by this client or by another one with the same
    connection string, returns the same connection and does nothing but
    the ping. *)
Theorem Connect_shared (c c' : Client) (w : World) (conn : DBConnection) :
  let w1 := snd (Connect c w) in
  snd (fst (Connect c w)) = inr conn ->
  ConnStr (config c') = ConnStr (config c) ->
  sql_Ping (history w1) (conn_DB conn) = None ->
  Connect c' w1 = ((c', inr conn), record (Ping (conn_DB conn)) w1).
Proof.
  intros w1 Hconn Hdsn Hping. apply Connect_reuse; [|exact Hping].
  rewrite Hdsn. subst w1.
  now apply (Connect_registry_facts c w).
Qed.

(** With no handle registered, a handle that cannot be opened, or whose
    identity query fails, makes [Connect] fail with a wrapped error: the
    client is as it was, nothing is registered, and in the first case the
    handle is never configured nor asked. *)
Theorem Connect_failure (c : Client) (w : World) :
  let dsn := ConnStr (config c) in
  let driverName := DriverName (config c) in
  let out := Connect c w in
  dbRegistry w !! dsn = None ->
  (forall err,
     sql_Open (history w) driverName dsn = inl err ->
     fst out =
       (c, inl (Wrapped ("error creating Redshift driver instance (driver: "
                         +:+ fmt_q driverName +:+ ")") err)) /\
     issued w (snd out) = [Open driverName dsn] /\
     dbRegistry (snd out) = dbRegistry w) /\
  (forall db err,
     sql_Open (history w) driverName dsn = inr db ->
     retrievedUsername (config c) = "" ->
     row_Scan (sql_QueryRowString
                 (history w ++ [Open driverName dsn; SetMaxIdleConns db 0;
                                SetMaxOpenConns db (MaxConns (config c))])
                 db currentUserQuery []) = inl err ->
     exists cause,
       fst out =
         (c, inl (Wrapped ("error retrieving username from Redshift database (driver: "
                           +:+ fmt_q driverName +:+ ")") (Wrapped cause err))) /\
       dbRegistry (snd out) = dbRegistry w).
Proof.
  intros dsn driverName out Hfound. subst out.
  unfold Connect, bind, registry_lookup, mustCreate. fold dsn driverName.
  rewrite Hfound. unfold ret at 1.
  unfold sql_open, db_SetMaxIdleConns, db_SetMaxOpenConns, perform, record. simpl.
  split.
  - intros err Hopen. rewrite Hopen. unfold ret, issued. simpl.
    rewrite drop_app_length. auto.
  - intros db err Hopen Hname Hrow. rewrite Hopen. simpl.
    unfold GetUsername. rewrite Hname. simpl.
    unfold bind, db_QueryRowString, perform, record, ret. simpl. flatten_history.
    destruct c as [cfg]. simpl in *.
    destruct (sql_QueryRowString _ db currentUserQuery []) as [e|e|v];
      simpl in Hrow; inversion Hrow; subst; simpl; eauto.
Qed.

(** [GetUsername] keeps what it learned: a name that scanned non-empty is
    stored, and from then on every call returns it with no error and
    without asking the database. *)
Theorem GetUsername_once (c : Config) (db : DBConnection) (w : World) (name : string) :
  let c1 := fst (fst (GetUsername c db w)) in
  retrievedUsername c = "" ->
  sql_QueryRowString (history w) (conn_DB db) currentUserQuery [] = Scanned name ->
  name <> "" ->
  snd (fst (GetUsername c db w)) = (name, None) /\
  forall (db' : DBConnection) (w' : World),
    GetUsername c1 db' w' = ((c1, (name, None)), w').
Proof.
  intros c1 Hempty Hrow Hname. subst c1.
  assert (GetUsername c db w =
          ((set_retrievedUsername c name, (name, None)),
           record (QueryRow (conn_DB db) currentUserQuery []) w)) as Hfirst.
  { unfold GetUsername. rewrite Hempty. simpl.
    unfold bind, db_QueryRowString, perform, ret. simpl. now rewrite Hrow. }
  rewrite Hfirst. simpl. split; [reflexivity|].
  intros db' w'. unfold GetUsername. simpl.
  destruct (String.eqb_spec name "") as [E|_]; [contradiction|]. reflexivity.
Qed.

(** What [GetUsername] does not keep: after a failure, and after a name
    that scanned empty, nothing is stored, and the next call asks the
    database again. *)
Theorem GetUsername_again (c : Config) (db : DBConnection) (w : World) :
  let out := GetUsername c db w in
  let answer := sql_QueryRowString (history w) (conn_DB db) currentUserQuery [] in
  retrievedUsername c = "" ->
  row_Scan answer = inr "" \/ (exists err, row_Scan answer = inl err) ->
  fst (fst out) = c /\
  fst (snd (fst out)) = "" /\
  (snd (snd (fst out)) = None <-> row_Scan answer = inr "") /\
  forall (db' : DBConnection) (w' : World),
    issued w' (snd (GetUsername (fst (fst out)) db' w')) =
      [QueryRow (conn_DB db') currentUserQuery []].
Proof.
  intros out answer Hempty Hrow. subst out answer.
  assert (fst (fst (GetUsername c db w)) = c) as Hsame.
  { unfold GetUsername. rewrite Hempty. simpl.
    unfold bind, db_QueryRowString, perform, ret. simpl.
    destruct (sql_QueryRowString _ _ _ _) as [e|e|v]; simpl in *; try reflexivity.
    destruct Hrow as [[= ->]|[err [=]]].
    destruct c; simpl in *. now subst. }
  split; [exact Hsame|]. rewrite Hsame.
  split; [|split].
  - unfold GetUsername. rewrite Hempty. simpl.
    unfold bind, db_QueryRowString, perform, ret. simpl.
    destruct (sql_QueryRowString _ _ _ _) as [e|e|v]; simpl in *; try reflexivity.
    now destruct Hrow as [[= ->]|[err [=]]].
  - unfold GetUsername. rewrite Hempty. simpl.
    unfold bind, db_QueryRowString, perform, ret. simpl.
    destruct (sql_QueryRowString _ _ _ _) as [e|e|v]; simpl in *.
    + split; intros [=].
    + split; intros [=].
    + destruct Hrow as [[= ->]|[err [=]]]. simpl. now split.
  - intros db' w'. rewrite GetUsername_calls. now rewrite Hempty.
Qed.

(** The error of the first serverless check is reported once: on a
    [Config] from [NewConfig], when the first probe fails with anything but
    insufficient privileges the call returns that error, and every later
    call answers [false] with no error and no probe. *)
Theorem IsServerless_error_once
  (driverName connStr database : string) (maxConns : Z)
  (db : DBConnection) (w : World) (err : error) :
  let c := NewConfig driverName connStr database maxConns in
  let c1 := fst (fst (IsServerless c db w)) in
  sql_Query (history w) (conn_DB db) probeServerless = Some err ->
  isPqErrorWithCode err pgErrorCodeInsufficientPrivileges = false ->
  snd (fst (IsServerless c db w)) = (false, Some err) /\
  forall (db' : DBConnection) (w' : World),
    IsServerless c1 db' w' = ((c1, (false, None)), w').
Proof.
  intros c c1 Hprobe Hclass. subst c1.
  assert (IsServerless c db w =
          ((set_checkedForServerless c true, (false, Some err)),
           record (Query (conn_DB db) probeServerless) w)) as Hfirst.
  { unfold IsServerless. simpl.
    unfold bind, db_Query, perform, ret. simpl. now rewrite Hprobe, Hclass. }
  rewrite Hfirst. simpl. split; [reflexivity|]. intros db' w'. reflexivity.
Qed.

End Registry_facts.

(** Every kind the schema accepts has its path in read: the user grants
    view for [user], the role grants view for [role], the recorded state
    for [group]. *)
Theorem validGrantToType_read_path (k : string) :
  validGrantToType k = true ->
  (strings.ToLower k = "user" /\ grantReadPlan k = ReadQuery userGrantsQuery) \/
  (strings.ToLower k = "role" /\ grantReadPlan k = ReadQuery roleGrantsQuery) \/
  (strings.ToLower k = "group" /\ grantReadPlan k = ReadTrustState).
Proof.
  intros Hv. destruct (validGrantToType_cases k Hv) as [E|[E|E]].
  - left. split; [exact E|now apply grantReadPlan_user].
  - right; left. split; [exact E|now apply grantReadPlan_role].
  - right; right. split; [exact E|now apply grantReadPlan_group].
Qed.

(** ** Instances *)

Lemma validGrantToType_read_path_witness :
  grantReadPlan "Role" = ReadQuery roleGrantsQuery.
Proof.
  destruct (validGrantToType_read_path "Role" eq_refl) as [[E _]|[[_ Hplan]|[E _]]];
    [discriminate E|exact Hplan|discriminate E].
Defined.

Lemma resourceRedshiftRoleGrantDelete_malformed_witness :
  @resourceRedshiftRoleGrantDelete (scripted healthy) conn0 colonGrant emptyWorld =
  ((colonGrant, Some (ErrorString "invalid role grant ID format: role:a:b:user:x")),
   emptyWorld).
Proof.
  apply (@resourceRedshiftRoleGrantDelete_malformed (scripted healthy) conn0 colonGrant
           emptyWorld).
  vm_compute. lia.
Defined.

Lemma resourceRedshiftRoleGrantDelete_absent_witness :
  fst (@resourceRedshiftRoleGrantDelete (scripted dropped) conn0 roleGrant emptyWorld) =
  (roleGrant, None).
Proof.
  apply (@resourceRedshiftRoleGrantDelete_absent (scripted dropped) conn0 roleGrant
           emptyWorld 0 "analyst" "role" "manager"
           (PqError "42704" "role analyst does not exist"));
    reflexivity.
Defined.

Lemma resourceRedshiftRoleGrantDelete_failure_witness :
  fst (@resourceRedshiftRoleGrantDelete (scripted denied) conn0 roleGrant emptyWorld) =
  (roleGrant, Some (Wrapped "could not revoke role" (PqError "42501" "permission denied"))).
Proof.
  destruct (@resourceRedshiftRoleGrantDelete_failure (scripted denied) conn0 roleGrant
              emptyWorld 0 "analyst" "role" "manager" eq_refl eq_refl) as (Hexec & _).
  apply (Hexec (PqError "42501" "permission denied")); reflexivity.
Defined.


Lemma resourceRedshiftRoleGrantCreate_failure_witness :
  fst (@resourceRedshiftRoleGrantCreate (scripted denied) conn0 userGrant emptyWorld) =
  (userGrant, Some (Wrapped "could not grant role" (PqError "42501" "permission denied"))).
Proof.
  destruct (@resourceRedshiftRoleGrantCreate_failure (scripted denied) conn0 userGrant
              emptyWorld 0 eq_refl) as (Hexec & _).
  apply (Hexec (PqError "42501" "permission denied")); reflexivity.
Defined.



Lemma resourceRedshiftRoleRead_found_witness :
  rd_Get (fst (fst (@resourceRedshiftRoleRead (scripted reporterDb) conn0 analystRole
                      emptyWorld))) roleNameAttr = "reporter".
Proof.
  apply (@resourceRedshiftRoleRead_found (scripted reporterDb) conn0 analystRole
           emptyWorld "reporter").
  reflexivity.
Defined.


Lemma resourceRedshiftRoleUpdate_unchanged_witness :
  issued emptyWorld
    (snd (@resourceRedshiftRoleUpdate (scripted healthy) conn0 sameRole emptyWorld)) =
  [QueryRow 0 selectRoleQuery ["analyst"]].
Proof.
  apply (@resourceRedshiftRoleUpdate_unchanged (scripted healthy) conn0 sameRole
           emptyWorld).
  reflexivity.
Defined.


Lemma resourceRedshiftRoleDelete_present_witness :
  fst (@resourceRedshiftRoleDelete (scripted healthy) conn0 analystRole emptyWorld) =
  (analystRole, None).
Proof.
  destruct (@resourceRedshiftRoleDelete_present (scripted healthy) conn0 analystRole
              emptyWorld 0 eq_refl) as (_ & Hpresent).
  destruct (Hpresent eq_refl) as (_ & Hexec).
  destruct (Hexec eq_refl) as (_ & Hcommit).
  apply Hcommit. reflexivity.
Defined.

Lemma startTransaction_failure_witness :
  @resourceRedshiftRoleCreate offline conn0 newRole emptyWorld =
  ((newRole, Some (ErrorString "driver: bad connection")), record (Begin 0) emptyWorld).
Proof.
  apply (@startTransaction_failure offline conn0 newRole emptyWorld
           (ErrorString "driver: bad connection") eq_refl).
Defined.

Lemma deferredRollback_always_witness :
  closes 0 (issued emptyWorld
    (snd (@resourceRedshiftRoleDelete (scripted healthy) conn0 analystRole emptyWorld))).
Proof.
  apply (@deferredRollback_always (scripted healthy) conn0 analystRole emptyWorld 0
           eq_refl).
Defined.

Lemma Connect_shared_witness :
  @Connect (scripted healthy) otherClient
    (snd (@Connect (scripted healthy) (NewClient devConfig) emptyWorld)) =
  ((otherClient, inr conn0),
   record (Ping 0) (snd (@Connect (scripted healthy) (NewClient devConfig) emptyWorld))).
Proof.
  apply (@Connect_shared (scripted healthy) (NewClient devConfig) otherClient emptyWorld
           conn0); reflexivity.
Defined.

Lemma Connect_failure_witness :
  fst (@Connect offline (NewClient devConfig) emptyWorld) =
  (NewClient devConfig,
   inl (Wrapped ("error creating Redshift driver instance (driver: "
                 +:+ fmt_q "postgres" +:+ ")") (ErrorString "sql: unknown driver"))).
Proof.
  destruct (@Connect_failure offline (NewClient devConfig) emptyWorld eq_refl)
    as (Hopen & _).
  apply (Hopen (ErrorString "sql: unknown driver")). reflexivity.
Defined.

Lemma GetUsername_once_witness :
  snd (fst (@GetUsername (scripted healthy) devConfig conn0 emptyWorld)) =
  ("admin", None).
Proof.
  apply (@GetUsername_once (scripted healthy) devConfig conn0 emptyWorld "admin");
    [reflexivity|reflexivity|discriminate].
Defined.

Lemma GetUsername_again_witness :
  fst (fst (@GetUsername (scripted nameless) devConfig conn0 emptyWorld)) = devConfig.
Proof.
  apply (@GetUsername_again (scripted nameless) devConfig conn0 emptyWorld eq_refl).
  left. reflexivity.
Defined.

Lemma IsServerless_error_once_witness :
  snd (fst (@IsServerless (scripted unreachable)
              (NewConfig "postgres" "host=example dbname=dev" "dev" 20) conn0
              emptyWorld)) =
  (false, Some (ErrorString "driver: bad connection")).
Proof.
  apply (@IsServerless_error_once (scripted unreachable) "postgres"
           "host=example dbname=dev" "dev" 20 conn0 emptyWorld
           (ErrorString "driver: bad connection")); reflexivity.
Defined.
